(** * MicroPython examples for PSoC 6: a shallow embedding

    The repository is a set of stand-alone MicroPython scripts.  Each
    script is embedded here as the state transformer it denotes: the
    builtins of the language (range, list indexing, truthiness, float
    arithmetic, text files) are written out once, and every script is a
    definition over them that follows its source line by line.

    Layout: definitions first (one module per script family), theorems
    after. *)

From Stdlib Require Import ZArith List String Ascii Lia Bool.
From Stdlib Require Import Floats.SpecFloat.
From Stdlib Require Import DecimalString.
From stdpp Require Import gmap strings list.

#[local] Open Scope Z_scope.

(* ===================================================================== *)
(** ** Builtins of the language                                           *)
(* ===================================================================== *)

Module Py.

(** [range(start, stop, step)]: the number of items is the one the
    interpreter computes, the items are [start + k * step]. *)
Definition range_len (start stop step : Z) : Z :=
  if 0 <? step then
    (if start <? stop then (stop - start - 1) / step + 1 else 0)
  else if step <? 0 then
    (if stop <? start then (start - stop - 1) / (- step) + 1 else 0)
  else 0.

Fixpoint range_items (n : nat) (start step : Z) : list Z :=
  match n with
  | O => []
  | S k => start :: range_items k (start + step) step
  end.

Definition range (start stop step : Z) : list Z :=
  range_items (Z.to_nat (range_len start stop step)) start step.

(** Values that the scripts bind to configuration constants: [None]
    or an integer. *)
Inductive value : Type :=
| VNone
| VInt (n : Z).

(** Truth value testing ([x if x else y], [if x:]). *)
Definition truthy (v : value) : bool :=
  match v with
  | VNone => false
  | VInt n => negb (n =? 0)
  end.

(** [l[i]] on a list: a negative index counts from the end, an index
    out of range raises IndexError ([None] here), and [None] is not an
    index (TypeError, [None] here as well). *)
Definition getitem {A : Type} (l : list A) (i : value) : option A :=
  match i with
  | VNone => None
  | VInt n =>
      let len := Z.of_nat (length l) in
      if (0 <=? n) && (n <? len) then nth_error l (Z.to_nat n)
      else if (- len <=? n) && (n <? 0) then nth_error l (Z.to_nat (len + n))
      else None
  end.

(** [str(n)] for an integer. *)
Definition str_int (n : Z) : string := NilZero.string_of_int (Z.to_int n).

(** The newline character, written \n in the sources. *)
Definition nl : string := String "010"%char EmptyString.

(** [s * n] on a string. *)
Fixpoint repeat_str (s : string) (n : nat) : string :=
  match n with
  | O => EmptyString
  | S k => (s +:+ repeat_str s k)%string
  end.

(** Padding on the left up to a width, as the format specs [5d], [3d]
    (with a space) and [02X] (with a zero) ask for. *)
Definition pad_left (c : ascii) (width : nat) (s : string) : string :=
  (repeat_str (String c EmptyString) (width - String.length s) +:+ s)%string.

Definition hex_digit (d : Z) : ascii :=
  if d <? 10 then ascii_of_nat (Z.to_nat (48 + d)) else ascii_of_nat (Z.to_nat (55 + d)).

(** Upper-case hexadecimal digits of a non-negative integer. *)
Fixpoint hex_digits (fuel : nat) (n : Z) (acc : string) : string :=
  match fuel with
  | O => acc
  | S k =>
      let acc' := String (hex_digit (n mod 16)) acc in
      if n / 16 =? 0 then acc' else hex_digits k (n / 16) acc'
  end.

Definition format_X (n : Z) : string := hex_digits (S (Z.to_nat (Z.log2 n))) n EmptyString.

(** [s.split(sep)] for a separator of one character. *)
Fixpoint split (sep : ascii) (s : string) : list string :=
  match s with
  | EmptyString => [EmptyString]
  | String c s' =>
      if Ascii.eqb c sep then EmptyString :: split sep s'
      else match split sep s' with
           | [] => [String c EmptyString]
           | x :: xs => String c x :: xs
           end
  end.

(** The lines a text file yields when it is iterated: each keeps its
    newline, the last one may lack it. *)
Fixpoint lines (s : string) : list string :=
  match s with
  | EmptyString => []
  | String c s' =>
      if Ascii.eqb c "010"%char then String c EmptyString :: lines s'
      else match lines s' with
           | [] => [String c EmptyString]
           | x :: xs => String c x :: xs
           end
  end.

(** A text with no newline in it. *)
Fixpoint no_newline (s : string) : bool :=
  match s with
  | EmptyString => true
  | String c s' => negb (Ascii.eqb c "010"%char) && no_newline s'
  end.

(** White space, as [strip] understands it. *)
Definition is_space (c : ascii) : bool :=
  let n := nat_of_ascii c in
  (Nat.eqb n 32 || (Nat.leb 9 n && Nat.leb n 13))%bool.

Fixpoint lstrip (s : string) : string :=
  match s with
  | EmptyString => EmptyString
  | String c s' => if is_space c then lstrip s' else s
  end.

Fixpoint rstrip (s : string) : string :=
  match s with
  | EmptyString => EmptyString
  | String c s' =>
      match rstrip s' with
      | EmptyString => if is_space c then EmptyString else String c EmptyString
      | r => String c r
      end
  end.

(** [s.strip()] *)
Definition strip (s : string) : string := lstrip (rstrip s).

(** [if s:] on a string. *)
Definition nonempty (s : string) : bool :=
  match s with
  | EmptyString => false
  | _ => true
  end.

(** [{s:20s}]: padding on the right. *)
Definition pad_right (width : nat) (s : string) : string :=
  (s +:+ repeat_str " " (width - String.length s))%string.

(** [{n:02X}], [{n:3d}], [{n:5d}] *)
Definition format_02X (n : Z) : string := pad_left "0"%char 2 (format_X n).
Definition format_3d (n : Z) : string := pad_left " "%char 3 (str_int n).
Definition format_5d (n : Z) : string := pad_left " "%char 5 (str_int n).

End Py.

(* ===================================================================== *)
(** ** 05_pwm_led_fade.py: the duty values of one fade cycle              *)
(* ===================================================================== *)

Module Fade.

Definition PWM_FREQ : Z := 1000.
Definition FADE_STEP : Z := 256.
Definition FADE_DELAY : Z := 10.

(** [for duty in range(0, 65536, FADE_STEP)] *)
Definition fade_in : list Z := Py.range 0 65536 FADE_STEP.

(** [for duty in range(65535, -1, -FADE_STEP)] *)
Definition fade_out : list Z := Py.range 65535 (-1) (- FADE_STEP).

(** One pass of the body of [while True]: every value handed to
    [pwm_led.duty_u16], in order. *)
Definition fade_cycle : list Z := fade_in ++ fade_out.

End Fade.

(* ===================================================================== *)
(** ** 10_uart_serial.py: the configuration banner                        *)
(* ===================================================================== *)

Module Uart.

Definition DATABITS : Z := 8.
Definition STOPBITS : Z := 1.

(** The value the script binds to PARITY. *)
Definition PARITY : Py.value := Py.VNone.

(** The settings the comment on PARITY lists: None, 0 (even), 1 (odd). *)
Definition valid_parity (p : Py.value) : Prop :=
  p = Py.VNone \/ p = Py.VInt 0 \/ p = Py.VInt 1.

(** [PARITY if PARITY else 0] *)
Definition parity_index (p : Py.value) : Py.value :=
  if Py.truthy p then p else Py.VInt 0.

(** [['N','E','O'][PARITY if PARITY else 0]] *)
Definition parity_letter (p : Py.value) : option string :=
  Py.getitem ["N"; "E"; "O"]%string (parity_index p).

(** [f"Config: {DATABITS}{...}{STOPBITS}"]; [None] when the index
    expression raises. *)
Definition config_banner (p : Py.value) : option string :=
  match parity_letter p with
  | Some c => Some ("Config: " +:+ Py.str_int DATABITS +:+ c +:+ Py.str_int STOPBITS)%string
  | None => None
  end.

End Uart.

(* ===================================================================== *)
(** ** The board as the scripts see it                                    *)
(* ===================================================================== *)

Module Machine.

(** Exceptions the scripts meet.  KeyboardInterrupt derives from
    BaseException only, the others from Exception. *)
Inductive exn : Type :=
| KeyboardInterrupt
| OSError (msg : string)
| ValueError (msg : string)
| NameError (msg : string)
| IndexError (msg : string).

(** [except Exception] *)
Definition is_Exception (e : exn) : bool :=
  match e with
  | KeyboardInterrupt => false
  | _ => true
  end.

(** [except OSError] *)
Definition is_OSError (e : exn) : bool :=
  match e with
  | OSError _ => true
  | _ => false
  end.

(** A bare [except:] *)
Definition any_exn (e : exn) : bool := true.

(** [except KeyboardInterrupt] *)
Definition is_KeyboardInterrupt (e : exn) : bool :=
  match e with
  | KeyboardInterrupt => true
  | _ => false
  end.

(** [str(e)], as an f-string renders [{e}]. *)
Definition str_exn (e : exn) : string :=
  match e with
  | KeyboardInterrupt => ""
  | OSError m | ValueError m | NameError m | IndexError m => m
  end.

Inductive pin_mode : Type := MODE_NONE | OUT | IN.
Inductive pin_pull : Type := PULL_NONE | PULL_UP.

(** A GPIO handle: its direction, its pull resistor and the level last
    written through it ([None] until the script writes one). *)
Record pin : Type := mkPin { mode : pin_mode; pull : pin_pull; level : option bool }.

(** A PWM handle: running with the frequency and duty last set, or
    released by [deinit]. *)
Inductive pwm : Type :=
| PwmRunning (freq duty : option Z)
| PwmReleased.

Inductive bus : Type := I2C | SPI | UART.

(** What the board answers; the scripts cannot change it. *)
Record board : Type := mkBoard {
  inputs : nat -> Z;               (* what the n-th read of an input returns *)
  fault : bus -> option exn;       (* what the constructor of a bus raises, if anything *)
  i2c_devices : list Z;            (* the addresses a scan reports *)
  times : nat -> Z                 (* what the n-th call of time.time() returns *)
}.

Record world : Type := mkWorld {
  hw : board;
  files : gmap string string;      (* the text files of the filesystem, by name *)
  pins : gmap string pin;          (* GPIO handles, by pin identifier *)
  pwms : gmap string pwm;          (* PWM handles, by pin identifier *)
  adcs : list string;              (* ADC handles, by pin identifier *)
  console : list string;           (* the arguments of print, in order *)
  clock : Z;                       (* milliseconds slept so far *)
  pending : option nat;            (* Ctrl+C arrives after that many operations *)
  reads : nat;                     (* reads of an input done so far *)
  time_calls : nat;                (* calls of time.time() done so far *)
  constructed : list bus           (* bus constructors called so far *)
}.

Definition set_files (f : gmap string string -> gmap string string) (w : world) : world :=
  mkWorld (hw w) (f (files w)) (pins w) (pwms w) (adcs w) (console w) (clock w) (pending w)
          (reads w) (time_calls w) (constructed w).
Definition set_pins (f : gmap string pin -> gmap string pin) (w : world) : world :=
  mkWorld (hw w) (files w) (f (pins w)) (pwms w) (adcs w) (console w) (clock w) (pending w)
          (reads w) (time_calls w) (constructed w).
Definition set_pwms (f : gmap string pwm -> gmap string pwm) (w : world) : world :=
  mkWorld (hw w) (files w) (pins w) (f (pwms w)) (adcs w) (console w) (clock w) (pending w)
          (reads w) (time_calls w) (constructed w).
Definition set_adcs (f : list string -> list string) (w : world) : world :=
  mkWorld (hw w) (files w) (pins w) (pwms w) (f (adcs w)) (console w) (clock w) (pending w)
          (reads w) (time_calls w) (constructed w).
Definition set_console (f : list string -> list string) (w : world) : world :=
  mkWorld (hw w) (files w) (pins w) (pwms w) (adcs w) (f (console w)) (clock w) (pending w)
          (reads w) (time_calls w) (constructed w).
Definition set_clock (f : Z -> Z) (w : world) : world :=
  mkWorld (hw w) (files w) (pins w) (pwms w) (adcs w) (console w) (f (clock w)) (pending w)
          (reads w) (time_calls w) (constructed w).
Definition set_pending (p : option nat) (w : world) : world :=
  mkWorld (hw w) (files w) (pins w) (pwms w) (adcs w) (console w) (clock w) p
          (reads w) (time_calls w) (constructed w).
Definition set_reads (f : nat -> nat) (w : world) : world :=
  mkWorld (hw w) (files w) (pins w) (pwms w) (adcs w) (console w) (clock w) (pending w)
          (f (reads w)) (time_calls w) (constructed w).
Definition set_time_calls (f : nat -> nat) (w : world) : world :=
  mkWorld (hw w) (files w) (pins w) (pwms w) (adcs w) (console w) (clock w) (pending w)
          (reads w) (f (time_calls w)) (constructed w).
Definition set_constructed (f : list bus -> list bus) (w : world) : world :=
  mkWorld (hw w) (files w) (pins w) (pwms w) (adcs w) (console w) (clock w) (pending w)
          (reads w) (time_calls w) (f (constructed w)).

(** The board after reset: the files the flash holds, no handle, an
    empty console. *)
Definition boot (b : board) (flash : gmap string string) (ctrl_c : option nat) : world :=
  mkWorld b flash ∅ ∅ [] [] 0 ctrl_c O O [].

(** *** Statements: state passing with exceptions *)

Inductive result (A : Type) : Type :=
| Ok (a : A)
| Raise (e : exn)
| OutOfFuel.
#[global] Arguments Ok {A} a.
#[global] Arguments Raise {A} e.
#[global] Arguments OutOfFuel {A}.

Definition M (A : Type) : Type := world -> result A * world.

#[export] Instance M_ret : MRet M := fun A a w => (Ok a, w).

#[export] Instance M_bind : MBind M := fun A B f m w =>
  match m w with
  | (Ok a, w') => f a w'
  | (Raise e, w') => (Raise e, w')
  | (OutOfFuel, w') => (OutOfFuel, w')
  end.

Definition raise {A : Type} (e : exn) : M A := fun w => (Raise e, w).

(** [try: m   except <classes> as e: h e] *)
Definition try_except {A : Type} (m : M A) (handles : exn -> bool) (h : exn -> M A) : M A :=
  fun w =>
    match m w with
    | (Raise e, w') => if handles e then h e w' else (Raise e, w')
    | r => r
    end.

(** One operation of the interpreter.  A pending Ctrl+C whose count has
    run out is raised in place of the operation, and is then spent. *)
Definition op {A : Type} (f : M A) : M A := fun w =>
  match pending w with
  | Some O => (Raise KeyboardInterrupt, set_pending None w)
  | Some (S n) => f (set_pending (Some n) w)
  | None => f w
  end.

(** [while True: body] *)
Fixpoint forever (fuel : nat) (body : M unit) : M unit :=
  match fuel with
  | O => fun w => (OutOfFuel, w)
  | S k => body ;; forever k body
  end.

(** [for x in l: body x] *)
Fixpoint for_each {B : Type} (l : list B) (body : B -> M unit) : M unit :=
  match l with
  | [] => mret tt
  | x :: l' => body x ;; for_each l' body
  end.

(** *** The machine and time modules, as far as the scripts use them *)

Definition print (s : string) : M unit :=
  op (fun w => (Ok tt, set_console (fun c => c ++ [s]) w)).

Definition sleep_ms (ms : Z) : M unit :=
  op (fun w => (Ok tt, set_clock (fun t => t + ms) w)).

(** [time.sleep(s)] for a whole number of seconds. *)
Definition sleep (s : Z) : M unit := sleep_ms (1000 * s).

(** [Pin(name, mode, pull)]: the handle is the pin identifier. *)
Definition Pin (name : string) (m : pin_mode) (p : pin_pull) : M string :=
  op (fun w => (Ok name, set_pins (insert name (mkPin m p None)) w)).

Definition write_level (b : bool) (p : pin) : pin := mkPin (mode p) (pull p) (Some b).
Definition flip_level (p : pin) : pin := mkPin (mode p) (pull p) (negb <$> level p).

(** [pin.value(b)]; [pin.on()] and [pin.off()] are [pin.value(1)] and
    [pin.value(0)]. *)
Definition Pin_value (h : string) (b : bool) : M unit :=
  op (fun w => (Ok tt, set_pins (alter (write_level b) h) w)).
Definition Pin_on (h : string) : M unit := Pin_value h true.
Definition Pin_off (h : string) : M unit := Pin_value h false.
Definition Pin_toggle (h : string) : M unit :=
  op (fun w => (Ok tt, set_pins (alter flip_level h) w)).

(** [pin.value()] on an input and [adc.read_u16()]: the next input. *)
Definition read_input : M Z :=
  op (fun w => (Ok (inputs (hw w) (reads w)), set_reads S w)).

(** [ADC(pin)] *)
Definition ADC (h : string) : M string :=
  op (fun w => (Ok h, set_adcs (fun l => l ++ [h]) w)).

(** [PWM(pin)] *)
Definition PWM (h : string) : M string :=
  op (fun w => (Ok h, set_pwms (insert h (PwmRunning None None)) w)).

Definition with_freq (f : Z) (p : pwm) : pwm :=
  match p with
  | PwmRunning _ d => PwmRunning (Some f) d
  | PwmReleased => PwmReleased
  end.
Definition with_duty (d : Z) (p : pwm) : pwm :=
  match p with
  | PwmRunning f _ => PwmRunning f (Some d)
  | PwmReleased => PwmReleased
  end.

Definition PWM_freq (h : string) (f : Z) : M unit :=
  op (fun w => (Ok tt, set_pwms (alter (with_freq f) h) w)).
Definition PWM_duty_u16 (h : string) (d : Z) : M unit :=
  op (fun w => (Ok tt, set_pwms (alter (with_duty d) h) w)).
Definition PWM_deinit (h : string) : M unit :=
  op (fun w => (Ok tt, set_pwms (alter (fun _ => PwmReleased) h) w)).

(** The constructor of a bus: it raises what the board makes it raise,
    and is counted either way. *)
Definition construct (b : bus) : M bus :=
  op (fun w =>
        let w' := set_constructed (fun l => l ++ [b]) w in
        match fault (hw w) b with
        | Some e => (Raise e, w')
        | None => (Ok b, w')
        end).

(** [i2c.scan()] *)
Definition I2C_scan (h : bus) : M (list Z) :=
  op (fun w => (Ok (i2c_devices (hw w)), w)).

(** [time.time()]: whole seconds, as the board counts them. *)
Definition time_time : M Z :=
  op (fun w => (Ok (times (hw w) (time_calls w)), set_time_calls S w)).

(** *** Text files *)

Definition ENOENT : exn := OSError "[Errno 2] ENOENT".

(** [open(name, 'w')]: the file is created or emptied.  The handle is
    the file name. *)
Definition open_w (name : string) : M string :=
  op (fun w => (Ok name, set_files (insert name EmptyString) w)).

(** [open(name, 'a')]: the file is created when it is missing. *)
Definition open_a (name : string) : M string :=
  op (fun w =>
        match files w !! name with
        | Some _ => (Ok name, w)
        | None => (Ok name, set_files (insert name EmptyString) w)
        end).

(** [open(name, 'r')] *)
Definition open_r (name : string) : M string :=
  op (fun w =>
        match files w !! name with
        | Some _ => (Ok name, w)
        | None => (Raise ENOENT, w)
        end).

(** [f.write(s)] on a handle opened with 'w' or 'a': at the end. *)
Definition File_write (f : string) (s : string) : M unit :=
  op (fun w => (Ok tt, set_files (alter (fun c => c +:+ s) f) w)).

(** [f.read()] on a handle just opened with 'r'. *)
Definition File_read (f : string) : M string :=
  op (fun w => (Ok (default EmptyString (files w !! f)), w)).

(** [os.listdir()] *)
Definition os_listdir : M (list string) :=
  op (fun w => (Ok (map fst (map_to_list (files w))), w)).

(** [os.stat(name)[6]]: the size in bytes. *)
Definition os_stat_size (name : string) : M Z :=
  op (fun w =>
        match files w !! name with
        | Some c => (Ok (Z.of_nat (String.length c)), w)
        | None => (Raise ENOENT, w)
        end).

(** The level last written to a pin, if any. *)
Definition pin_level (w : world) (name : string) : option bool :=
  pins w !! name ≫= level.

(** [pin.value()] on an output: the level last written. *)
Definition Pin_get (h : string) : M (option bool) :=
  op (fun w => (Ok (pin_level w h), w)).

End Machine.

(* ===================================================================== *)
(** ** 04_adc_analog_input.py: samples to volts                           *)
(* ===================================================================== *)

Module Adc.

(** The arithmetic is the interpreter's float arithmetic: IEEE 754
    binary floating point, round to nearest even, with [prec] bits of
    mantissa and exponents below [emax].  A desktop interpreter has
    binary64 floats, a single-precision build has binary32 floats. *)
Section Format.

Variables prec emax : Z.

(** An integer as a float, as arithmetic converts an int operand. *)
Definition of_int (n : Z) : spec_float := binary_normalize prec emax n 0 false.

(** A decimal literal [num/den]: the float nearest to it. *)
Definition literal (num den : Z) : spec_float := SFdiv prec emax (of_int num) (of_int den).

(** [VREF = 3.3] *)
Definition VREF : spec_float := literal 33 10.

(** [voltage = (raw_value / 65535) * VREF] *)
Definition voltage (raw_value : Z) : spec_float :=
  SFmul prec emax (SFdiv prec emax (of_int raw_value) (of_int 65535)) VREF.

End Format.

(** The same product with the two constants already evaluated. *)
Definition scaled (prec emax : Z) (full vref : spec_float) (raw_value : Z) : spec_float :=
  SFmul prec emax (SFdiv prec emax (of_int prec emax raw_value) full) vref.

Definition voltage64 : Z -> spec_float := voltage 53 1024.
Definition voltage32 : Z -> spec_float := voltage 24 128.
Definition VREF64 : spec_float := VREF 53 1024.
Definition VREF32 : spec_float := VREF 24 128.

(** 65535 and 3.3 as floats, evaluated once. *)
Definition full64 : spec_float := Eval vm_compute in of_int 53 1024 65535.
Definition full32 : spec_float := Eval vm_compute in of_int 24 128 65535.
Definition vref64 : spec_float := Eval vm_compute in VREF64.
Definition vref32 : spec_float := Eval vm_compute in VREF32.

(** A float that is zero or positive and finite. *)
Definition nonneg (x : spec_float) : bool :=
  match x with
  | S754_zero _ => true
  | S754_finite false _ _ => true
  | _ => false
  end.

(** [prev <= v (r+1) <= v (r+2) <= ...], checked on the [n] samples
    that follow [r]; [prev] is [v r]. *)
Fixpoint ascending_from (v : Z -> spec_float) (n : nat) (r : Z) (prev : spec_float) : bool :=
  match n with
  | O => true
  | S k =>
      let x := v (r + 1) in
      nonneg x && SFleb prev x && ascending_from v k (r + 1) x
  end.

Definition ascending (v : Z -> spec_float) (n : nat) : bool :=
  let x := v 0 in nonneg x && ascending_from v n 0 x.

End Adc.

(* ===================================================================== *)
(** ** The scripts with a main loop                                       *)
(* ===================================================================== *)

Module LedBlink.
Import Machine.

(** 01_led_blink.py *)
Definition LED_PIN : string := "P13_7".

Definition main (fuel : nat) : M unit :=
  led ← Pin LED_PIN OUT PULL_NONE;
  Pin_off led;;
  print "LED Blink started. Press Ctrl+C to stop.";;
  try_except
    (forever fuel
       (sleep_ms 1000;;
        Pin_toggle led))
    is_KeyboardInterrupt
    (fun _ =>
       print (Py.nl +:+ "Stopped by user");;
       Pin_off led).

(** Operations before the [try] statement is entered. *)
Definition before_try : nat := 3.

End LedBlink.

Module LedSignal.
Import Machine.

(** 02_led_on_signal.py *)
Definition LED_PIN : string := "P13_7".

(** Modelled from the spec: machine.Signal belongs to the firmware, not
    to the scripts.  A Signal wraps a pin it does not own and an
    inversion flag; on() and off() request a level and the pin is
    driven to [requested_level XOR invert]. *)
Record signal : Type := mkSignal { sig_pin : string; sig_invert : bool }.

Definition Signal (pin : string) (invert : bool) : M signal :=
  op (fun w => (Ok (mkSignal pin invert), w)).

Definition Signal_value (s : signal) (requested : bool) : M unit :=
  Pin_value (sig_pin s) (xorb requested (sig_invert s)).
Definition Signal_on (s : signal) : M unit := Signal_value s true.
Definition Signal_off (s : signal) : M unit := Signal_value s false.

Definition main : M unit :=
  pin ← Pin LED_PIN OUT PULL_NONE;
  led ← Signal pin true;
  Signal_on led;;
  print ("LED on pin " +:+ LED_PIN +:+ " is now ON");;
  print "The LED will stay on. To turn it off, run led.off() in the REPL".

End LedSignal.

Module ButtonInput.
Import Machine.

(** 03_button_input.py *)
Definition LED_PIN : string := "P13_7".
Definition BUTTON_PIN : string := "P0_4".

Definition main (fuel : nat) : M unit :=
  button ← Pin BUTTON_PIN IN PULL_UP;
  led ← Pin LED_PIN OUT PULL_NONE;
  Pin_off led;;
  print "Button input example started";;
  print ("Button pin: " +:+ BUTTON_PIN +:+ ", LED pin: " +:+ LED_PIN);;
  print "Press the button to turn on the LED. Press Ctrl+C to stop.";;
  try_except
    (forever fuel
       (v ← read_input;
        (if v =? 0 then Pin_on led else Pin_off led);;
        sleep_ms 50))
    is_KeyboardInterrupt
    (fun _ =>
       print (Py.nl +:+ "Stopped by user");;
       Pin_off led).

Definition before_try : nat := 6.

End ButtonInput.

Module AdcInput.
Import Machine.

(** 04_adc_analog_input.py *)
Definition ADC_PIN : string := "P10_0".

Section Interpreter.

(** The float format of the interpreter, and its rendering of the
    format spec [5.3f]. *)
Variables prec emax : Z.
Variable format_5_3f : spec_float -> string.

Definition main (fuel : nat) : M unit :=
  print ("Initializing ADC on pin " +:+ ADC_PIN);;
  pin ← Pin ADC_PIN MODE_NONE PULL_NONE;
  adc ← ADC pin;
  print "ADC reading started. Press Ctrl+C to stop.";;
  print "Reading format: Raw Value | Voltage";;
  print (Py.repeat_str "-" 40);;
  try_except
    (forever fuel
       (raw_value ← read_input;
        let voltage := Adc.voltage prec emax raw_value in
        print ("Raw: " +:+ Py.format_5d raw_value +:+ " | Voltage: "
                 +:+ format_5_3f voltage +:+ "V");;
        sleep 1))
    is_KeyboardInterrupt
    (fun _ =>
       print (Py.nl +:+ "Stopped by user")).

End Interpreter.

Definition before_try : nat := 6.

End AdcInput.

Module PwmFade.
Import Machine.

(** 05_pwm_led_fade.py *)
Definition LED_PIN : string := "P13_7".

Definition main (fuel : nat) : M unit :=
  pin ← Pin LED_PIN MODE_NONE PULL_NONE;
  pwm_led ← PWM pin;
  PWM_freq pwm_led Fade.PWM_FREQ;;
  print ("PWM LED fade example started on pin " +:+ LED_PIN);;
  print ("Frequency: " +:+ Py.str_int Fade.PWM_FREQ +:+ " Hz");;
  print "Press Ctrl+C to stop.";;
  try_except
    (forever fuel
       (for_each Fade.fade_in
          (fun duty =>
             PWM_duty_u16 pwm_led duty;;
             sleep_ms Fade.FADE_DELAY);;
        for_each Fade.fade_out
          (fun duty =>
             PWM_duty_u16 pwm_led duty;;
             sleep_ms Fade.FADE_DELAY)))
    is_KeyboardInterrupt
    (fun _ =>
       print (Py.nl +:+ "Stopped by user");;
       PWM_deinit pwm_led).

Definition before_try : nat := 6.

End PwmFade.

(* ===================================================================== *)
(** ** 07_file_operations.py                                              *)
(* ===================================================================== *)

Module FileOps.
Import Machine.

Definition filename : string := "data.txt".
Definition log_file : string := "sensor_log.csv".

(** [with open(name, 'w') as f:] followed by one [f.write] per text. *)
Definition write_block (name : string) (texts : list string) : M unit :=
  f ← open_w name;
  for_each texts (File_write f).

(** [with open(name, 'a') as f:] followed by one [f.write] per text. *)
Definition append_block (name : string) (texts : list string) : M unit :=
  f ← open_a name;
  for_each texts (File_write f).

(** Example 2: [content = f.read()], then [content.split('\n')] with
    the empty lines skipped. *)
Definition print_contents (name : string) : M unit :=
  f ← open_r name;
  content ← File_read f;
  print "   File contents:";;
  print ("   " +:+ Py.repeat_str "-" 45);;
  for_each (Py.split "010"%char content)
    (fun line => if Py.nonempty line then print ("   " +:+ line) else mret tt);;
  print ("   " +:+ Py.repeat_str "-" 45).

(** The body of [for line in f:] in example 4, with its counter. *)
Fixpoint print_numbered (ls : list string) (line_num : Z) : M Z :=
  match ls with
  | [] => mret line_num
  | line :: ls' =>
      print ("   Line " +:+ Py.str_int line_num +:+ ": " +:+ Py.strip line);;
      print_numbered ls' (line_num + 1)
  end.

(** Example 4: the file is iterated line by line. *)
Definition print_lines (name : string) : M unit :=
  f ← open_r name;
  content ← File_read f;
  print_numbered (Py.lines content) 1;;
  mret tt.

Section Interpreter.

(** The float format of the interpreter and its [str] of a float. *)
Variables prec emax : Z.
Variable str_float : spec_float -> string.

Definition example1 : M unit :=
  print (Py.nl +:+ "1. Writing to a file...");;
  f ← open_w filename;
  File_write f ("PSoC™ 6 MicroPython File Example" +:+ Py.nl);;
  File_write f ("Temperature: 25.5°C" +:+ Py.nl);;
  File_write f ("Humidity: 60%" +:+ Py.nl);;
  t ← time_time;
  File_write f ("Timestamp: " +:+ Py.str_int t +:+ Py.nl);;
  print ("   Data written to '" +:+ filename +:+ "'").

Definition example2 : M unit :=
  print (Py.nl +:+ "2. Reading from a file...");;
  print_contents filename.

Definition example3 : M unit :=
  print (Py.nl +:+ "3. Appending to a file...");;
  f ← open_a filename;
  t ← time_time;
  File_write f ("Appended data at: " +:+ Py.str_int t +:+ Py.nl);;
  File_write f ("Status: OK" +:+ Py.nl);;
  print ("   Additional data appended to '" +:+ filename +:+ "'").

Definition example4 : M unit :=
  print (Py.nl +:+ "4. Reading file line by line...");;
  print_lines filename.

(** [temperature = 25.0 + i * 0.5] and [humidity = 60 + i * 2] *)
Definition temperature (i : Z) : spec_float :=
  SFadd prec emax (Adc.literal prec emax 250 10)
        (SFmul prec emax (Adc.of_int prec emax i) (Adc.literal prec emax 5 10)).
Definition humidity (i : Z) : Z := 60 + i * 2.

(** [f'{timestamp},{temperature},{humidity}\n'] *)
Definition csv_row (timestamp : Z) (i : Z) : string :=
  Py.str_int timestamp +:+ "," +:+ str_float (temperature i) +:+ ","
    +:+ Py.str_int (humidity i) +:+ Py.nl.

Definition csv_header : string := "Timestamp,Temperature,Humidity".

Definition example5 : M unit :=
  print (Py.nl +:+ "5. Creating a sensor data log...");;
  f ← open_w log_file;
  File_write f (csv_header +:+ Py.nl);;
  print ("   Logging data to '" +:+ log_file +:+ "'...");;
  for_each (Py.range 0 5 1)
    (fun i =>
       timestamp ← time_time;
       f ← open_a log_file;
       File_write f (csv_row timestamp i);;
       print ("   Logged: T=" +:+ str_float (temperature i) +:+ "°C, H="
                +:+ Py.str_int (humidity i) +:+ "%");;
       sleep_ms 500).

Definition example6 : M unit :=
  print (Py.nl +:+ "6. Listing files in the filesystem...");;
  try_except
    (fs ← os_listdir;
     print ("   Found " +:+ Py.str_int (Z.of_nat (length fs)) +:+ " file(s):");;
     for_each fs
       (fun file =>
          try_except
            (size ← os_stat_size file;
             print ("   - " +:+ Py.pad_right 20 file +:+ " (" +:+ Py.str_int size +:+ " bytes)"))
            any_exn
            (fun _ => print ("   - " +:+ file))))
    is_Exception
    (fun e => print ("   Error listing files: " +:+ str_exn e)).

Definition test_files : list string := ["data.txt"; "sensor_log.csv"; "nonexistent.txt"].

Definition example7 : M unit :=
  print (Py.nl +:+ "7. Checking file existence...");;
  for_each test_files
    (fun fname =>
       try_except
         (os_stat_size fname;;
          print ("   '" +:+ fname +:+ "' exists"))
         is_OSError
         (fun _ => print ("   '" +:+ fname +:+ "' does not exist"))).

Definition example8 : M unit :=
  print (Py.nl +:+ "8. File management...");;
  print "   To delete a file, use: os.remove('filename.txt')";;
  print "   To rename a file, use: os.rename('old.txt', 'new.txt')".

Definition main : M unit :=
  print "File Operations Example for PSoC™ 6";;
  print (Py.repeat_str "=" 50);;
  example1;;
  example2;;
  example3;;
  example4;;
  example5;;
  example6;;
  example7;;
  example8;;
  print (Py.nl +:+ Py.repeat_str "=" 50);;
  print "File operations example completed!";;
  print (Py.nl +:+ "Tip: Create 'main.py' to have code run automatically on boot").

End Interpreter.

(** The scenario of the specification, made of the blocks above: write
    a log, append to it, read it back both ways. *)
Definition log_round_trip (name : string) (written appended : string) : M unit :=
  write_block name [written];;
  append_block name [appended];;
  print_contents name;;
  print_lines name.

End FileOps.

(* ===================================================================== *)
(** ** The scripts that open a bus                                        *)
(* ===================================================================== *)

(** Each script is embedded up to the end of the [try] statement that
    constructs the bus; what follows in the source needs the handle and
    is the continuation [rest]. *)

Module I2cComm.
Import Machine.

(** 06_i2c_communication.py *)
Definition I2C_ID : Z := 0.
Definition SCL_PIN : string := "P6_0".
Definition SDA_PIN : string := "P6_1".
Definition I2C_FREQ : Z := 400000.

Definition banner : list string :=
  [ "I2C Communication Example";
    "Bus: " +:+ Py.str_int I2C_ID +:+ ", SCL: " +:+ SCL_PIN +:+ ", SDA: " +:+ SDA_PIN
      +:+ ", Freq: " +:+ Py.str_int I2C_FREQ +:+ " Hz";
    Py.repeat_str "-" 50 ].

Definition diagnostic (e : exn) : string := "Error initializing I2C: " +:+ str_exn e.

Definition main (rest : bus -> M unit) : M unit :=
  for_each banner print;;
  i2c ← try_except
          (scl ← Pin SCL_PIN MODE_NONE PULL_NONE;
           sda ← Pin SDA_PIN MODE_NONE PULL_NONE;
           i2c ← construct I2C;
           print "I2C initialized successfully";;
           mret i2c)
          is_Exception
          (fun e =>
             print (diagnostic e);;
             raise e);
  rest i2c.

End I2cComm.

Module SpiComm.
Import Machine.

(** 09_spi_communication.py *)
Definition SPI_ID : Z := 0.
Definition MOSI_PIN : string := "P12_0".
Definition MISO_PIN : string := "P12_1".
Definition SCK_PIN : string := "P12_2".
Definition CS_PIN : string := "P12_3".
Definition SPI_BAUDRATE : Z := 1000000.

Definition banner : list string :=
  [ "SPI Communication Example for PSoC™ 6";
    Py.repeat_str "=" 50;
    "SPI Bus: " +:+ Py.str_int SPI_ID;
    "MOSI: " +:+ MOSI_PIN +:+ ", MISO: " +:+ MISO_PIN +:+ ", SCK: " +:+ SCK_PIN;
    "CS: " +:+ CS_PIN;
    "Baudrate: " +:+ Py.str_int SPI_BAUDRATE +:+ " Hz";
    Py.repeat_str "-" 50 ].

Definition diagnostic (e : exn) : string := "Error initializing SPI: " +:+ str_exn e.

Definition main (rest : bus -> M unit) : M unit :=
  for_each banner print;;
  cs ← Pin CS_PIN OUT PULL_NONE;
  Pin_value cs true;;
  spi ← try_except
          (sck ← Pin SCK_PIN MODE_NONE PULL_NONE;
           mosi ← Pin MOSI_PIN MODE_NONE PULL_NONE;
           miso ← Pin MISO_PIN MODE_NONE PULL_NONE;
           spi ← construct SPI;
           print ("SPI initialized successfully" +:+ Py.nl);;
           mret spi)
          is_Exception
          (fun e =>
             print (diagnostic e);;
             raise e);
  rest spi.

End SpiComm.

Module UartSerial.
Import Machine.

(** 10_uart_serial.py *)
Definition UART_ID : Z := 0.
Definition TX_PIN : string := "P5_1".
Definition RX_PIN : string := "P5_0".
Definition BAUDRATE : Z := 115200.

Definition banner_head : list string :=
  [ "UART Serial Communication Example";
    Py.repeat_str "=" 50;
    "UART: " +:+ Py.str_int UART_ID +:+ ", Baudrate: " +:+ Py.str_int BAUDRATE;
    "TX: " +:+ TX_PIN +:+ ", RX: " +:+ RX_PIN ].

(** The line with the parity letter: the subscript may raise. *)
Definition print_config (parity : Py.value) : M unit :=
  match Uart.config_banner parity with
  | Some line => print line
  | None => op (raise (IndexError "list index out of range"))
  end.

Definition diagnostic (e : exn) : string := "Error initializing UART: " +:+ str_exn e.

Definition main (rest : bus -> M unit) : M unit :=
  for_each banner_head print;;
  print_config Uart.PARITY;;
  print (Py.repeat_str "-" 50);;
  uart ← try_except
           (tx ← Pin TX_PIN MODE_NONE PULL_NONE;
            rx ← Pin RX_PIN MODE_NONE PULL_NONE;
            uart ← construct UART;
            print ("UART initialized successfully" +:+ Py.nl);;
            mret uart)
           is_Exception
           (fun e =>
              print (diagnostic e);;
              raise e);
  rest uart.

(** What the script has printed when the [try] statement is reached. *)
Definition banner : list string :=
  banner_head ++ ["Config: 8N1"; Py.repeat_str "-" 50].

End UartSerial.

Module AiSensors.
Import Machine.

(** 12_cy8ckit_062s2_ai_sensors.py *)
Definition I2C_SDA : string := "P6_1".
Definition I2C_SCL : string := "P6_0".

Definition sensor_map : gmap Z string :=
  list_to_map
    [ (104, "BMI270 - 6-axis IMU (Accelerometer + Gyroscope)");
      (105, "BMI270 - 6-axis IMU (Alternative address)");
      (20, "BMM350 - 3-axis Magnetometer");
      (119, "DPS368 - Barometric Pressure Sensor");
      (118, "DPS368 - Barometric Pressure (Alternative address)") ].

Definition banner : list string :=
  [ "CY8CKIT-062S2-AI Sensor Examples";
    Py.repeat_str "=" 60;
    Py.nl +:+ "Example 1: Scanning I2C bus for onboard sensors...";
    Py.repeat_str "-" 60 ].

Definition diagnostic (e : exn) : list string :=
  [ "I2C initialization error: " +:+ str_exn e;
    "Note: Sensor drivers may require ModusToolbox libraries" ].

(** After the [try] statement the name [i2c] is bound only when the
    constructor returned. *)
Definition main (rest : option bus -> M unit) : M unit :=
  for_each banner print;;
  i2c ← try_except
          (scl ← Pin I2C_SCL MODE_NONE PULL_NONE;
           sda ← Pin I2C_SDA MODE_NONE PULL_NONE;
           i2c ← construct I2C;
           devices ← I2C_scan i2c;
           match devices with
           | _ :: _ =>
               print ("Found " +:+ Py.str_int (Z.of_nat (length devices)) +:+ " I2C device(s):");;
               for_each devices
                 (fun addr =>
                    let sensor_name := default "Unknown device" (sensor_map !! addr) in
                    print ("  0x" +:+ Py.format_02X addr +:+ " (" +:+ Py.format_3d addr
                             +:+ ") - " +:+ sensor_name))
           | [] =>
               print "No I2C devices found!";;
               print "Check connections and sensor power"
           end;;
           mret (Some i2c))
          is_Exception
          (fun e =>
             for_each (diagnostic e) print;;
             mret None);
  rest i2c.

End AiSensors.

(* ===================================================================== *)
(** ** The scripts whose main loop runs until Ctrl+C                      *)
(* ===================================================================== *)

Module Catalogue.
Import Machine.

Record example : Type := mkExample {
  source : string;
  before_try : nat;          (* operations before the [try] is entered *)
  main : nat -> M unit       (* the script, given the fuel of its [while True] *)
}.

Section Interpreter.

Variables prec emax : Z.
Variable format_5_3f : spec_float -> string.

(** The scripts with a [while True] loop.  The others run a fixed
    sequence and end by themselves. *)
Definition until_cancelled : list example :=
  [ mkExample "01_led_blink.py" LedBlink.before_try LedBlink.main;
    mkExample "03_button_input.py" ButtonInput.before_try ButtonInput.main;
    mkExample "04_adc_analog_input.py" AdcInput.before_try
              (AdcInput.main prec emax format_5_3f);
    mkExample "05_pwm_led_fade.py" PwmFade.before_try PwmFade.main ].

End Interpreter.

(** Every GPIO output the script holds is at the off level. *)
Definition outputs_off (w : world) : Prop :=
  forall name p, pins w !! name = Some p -> mode p = OUT -> level p = Some false.

(** Every PWM the script acquired is released. *)
Definition pwms_released (w : world) : Prop :=
  forall name p, pwms w !! name = Some p -> p = PwmReleased.

End Catalogue.

(* ===================================================================== *)
(** ** Vocabulary of the statements                                       *)
(* ===================================================================== *)

Module Spec.
Import Machine.

(** [consumes d I m]: started with a Ctrl+C pending and the handles in
    a state that satisfies [I], the statement [m] either returns, after
    at least [d] operations, or raises KeyboardInterrupt, which is then
    spent; [I] holds afterwards either way. *)
Definition consumes {A : Type} (d : nat) (I : world -> Prop) (m : M A) : Prop :=
  forall w n, pending w = Some n -> I w ->
    match m w with
    | (Ok _, w') => I w' /\ exists n', pending w' = Some n' /\ (n' + d <= n)%nat
    | (Raise e, w') => e = KeyboardInterrupt /\ I w' /\ pending w' = None
    | (OutOfFuel, _) => False
    end.

(** An invariant on the GPIO and PWM handles only. *)
Definition on_handles (P : gmap string pin -> gmap string pwm -> Prop) (w : world) : Prop :=
  P (pins w) (pwms w).

(** The shape that writing or toggling a pin keeps: the pin [h] is an
    output, the others are as [rest] has them. *)
Definition led_over (h : string) (rest : gmap string pin)
           (ps : gmap string pin) (ws : gmap string pwm) : Prop :=
  (exists l, ps = <[h := mkPin OUT PULL_NONE l]> rest) /\ ws = ∅.

(** The shape that setting a duty keeps: the PWM [h] is the only one. *)
Definition pwm_over (h : string) (ps0 : gmap string pin)
           (ps : gmap string pin) (ws : gmap string pwm) : Prop :=
  ps = ps0 /\ exists p, ws = {[h := p]}.

Definition adc_handles (ps : gmap string pin) (ws : gmap string pwm) : Prop :=
  ps = {[ AdcInput.ADC_PIN := mkPin MODE_NONE PULL_NONE None ]} /\ ws = ∅.

Definition fade_handles : gmap string pin -> gmap string pwm -> Prop :=
  pwm_over PwmFade.LED_PIN {[ PwmFade.LED_PIN := mkPin MODE_NONE PULL_NONE None ]}.

(** [benign P m]: with no Ctrl+C pending, [m] only prints, and returns
    or raises an exception that [P] accepts. *)
Definition benign {A : Type} (P : exn -> bool) (m : M A) : Prop :=
  forall w, pending w = None ->
    exists r out, m w = (r, set_console (fun c => c ++ out) w) /\
                  match r with
                  | Ok _ => True
                  | Raise e => P e = true
                  | OutOfFuel => False
                  end.

Definition no_exn (e : exn) : bool := false.

(** Boards for the concrete runs. *)
Definition quiet_board : board :=
  mkBoard (fun _ => 1) (fun _ => None) [] (fun _ => 0).

Definition faulty_board : board :=
  mkBoard (fun _ => 1) (fun _ => Some (OSError "[Errno 5] EIO")) [] (fun _ => 0).

(** The texts of the log scenario. *)
Definition scenario_written : string := "a" +:+ Py.nl +:+ "b" +:+ Py.nl +:+ "c" +:+ Py.nl.
Definition scenario_appended : string := "d" +:+ Py.nl.

End Spec.


(* ===================================================================== *)
(** * Theorems                                                            *)
(* ===================================================================== *)

Import Machine Spec.

Example range_small : Py.range 0 10 3 = [0; 3; 6; 9].
Proof. reflexivity. Qed.

Example range_down : Py.range 10 (-1) (-4) = [10; 6; 2].
Proof. reflexivity. Qed.

Example range_empty : Py.range 5 5 1 = [] /\ Py.range 0 3 (-1) = [].
Proof. split; reflexivity. Qed.

Example banner_default : Uart.config_banner Uart.PARITY = Some "Config: 8N1"%string.
Proof. vm_compute. reflexivity. Qed.

(** ** PWM fade: the duty values *)

Lemma fade_in_items : Fade.fade_in = map (fun k => 256 * Z.of_nat k) (seq 0 256).
Proof. vm_compute. reflexivity. Qed.

Lemma fade_out_items : Fade.fade_out = map (fun k => 65535 - 256 * Z.of_nat k) (seq 0 256).
Proof. vm_compute. reflexivity. Qed.

Lemma fade_in_never_full : ~ In 65535 Fade.fade_in.
Proof.
  rewrite fade_in_items, in_map_iff. intros (k & Hk & _). lia.
Qed.

Lemma fade_out_never_zero : ~ In 0 Fade.fade_out.
Proof.
  rewrite fade_out_items, in_map_iff. intros (k & Hk & _). lia.
Qed.

Lemma fade_in_last : List.last Fade.fade_in (-1) = 65280.
Proof. vm_compute. reflexivity. Qed.

Lemma fade_out_last : List.last Fade.fade_out (-1) = 255.
Proof. vm_compute. reflexivity. Qed.

Lemma fade_out_first : hd_error Fade.fade_out = Some 65535.
Proof. vm_compute. reflexivity. Qed.

Lemma fade_in_first : hd_error Fade.fade_in = Some 0.
Proof. vm_compute. reflexivity. Qed.

(** C9, as stated, fails: one pass of the loop does hand 65535 (fully
    on) to the PWM, as the first value of the fade-out, and 0 (fully
    off), as the first value of the fade-in. *)
Lemma fade_cycle_reaches_both_ends :
  ~ (forall d, In d Fade.fade_cycle -> d <> 65535 /\ d <> 0).
Proof.
  intros H. destruct (H 65535) as [Hfull _]; [| congruence].
  unfold Fade.fade_cycle. apply in_or_app. right.
  rewrite fade_out_items. apply in_map_iff. exists 0%nat. split; [reflexivity |].
  apply in_seq. lia.
Qed.

(** C9, amended: the fade-in ends at 65280 and never sets 65535, the
    fade-out ends at 255 and never sets 0; yet each pass sets 65535
    once (the fade-out starts there) and 0 once (the fade-in starts
    there), and no value outside 0..65535. *)
Theorem fade_cycle_duties :
  List.last Fade.fade_in (-1) = 65280 /\ ~ In 65535 Fade.fade_in /\
  List.last Fade.fade_out (-1) = 255 /\ ~ In 0 Fade.fade_out /\
  hd_error Fade.fade_out = Some 65535 /\ hd_error Fade.fade_in = Some 0 /\
  count_occ Z.eq_dec Fade.fade_cycle 65535 = 1%nat /\
  count_occ Z.eq_dec Fade.fade_cycle 0 = 1%nat /\
  Forall (fun d => 0 <= d <= 65535) Fade.fade_cycle.
Proof.
  split; [exact fade_in_last |].
  split; [exact fade_in_never_full |].
  split; [exact fade_out_last |].
  split; [exact fade_out_never_zero |].
  split; [exact fade_out_first |].
  split; [exact fade_in_first |].
  split; [vm_compute; reflexivity |].
  split; [vm_compute; reflexivity |].
  apply List.Forall_forall. intros d Hd. unfold Fade.fade_cycle in Hd.
  apply in_app_or in Hd. destruct Hd as [Hd | Hd].
  - rewrite fade_in_items in Hd. apply in_map_iff in Hd.
    destruct Hd as (k & <- & Hk). apply in_seq in Hk. lia.
  - rewrite fade_out_items in Hd. apply in_map_iff in Hd.
    destruct Hd as (k & <- & Hk). apply in_seq in Hk. lia.
Qed.

(** ** UART banner: the parity letter *)

(** C10: for the three settings of PARITY the letter is N for None and
    for 0, E for 1, and never O. *)
Theorem parity_letter_of_valid (p : Py.value) :
  Uart.valid_parity p ->
  (p = Py.VNone -> Uart.parity_letter p = Some "N"%string) /\
  (p = Py.VInt 0 -> Uart.parity_letter p = Some "N"%string) /\
  (p = Py.VInt 1 -> Uart.parity_letter p = Some "E"%string) /\
  Uart.parity_letter p <> Some "O"%string.
Proof.
  intros [-> | [-> | ->]]; repeat split; intros; try discriminate; reflexivity.
Qed.

Lemma parity_letter_of_valid_witness :
  Uart.parity_letter (Py.VInt 1) = Some "E"%string /\
  Uart.parity_letter (Py.VInt 1) <> Some "O"%string.
Proof.
  assert (Hv : Uart.valid_parity (Py.VInt 1)) by (right; right; reflexivity).
  destruct (parity_letter_of_valid (Py.VInt 1) Hv) as (_ & _ & HE & HO).
  split; [apply HE; reflexivity | exact HO].
Defined.

(** The letter O needs the index 2 (or -1), which is none of the
    settings. *)
Lemma parity_letter_O (p : Py.value) :
  Uart.parity_letter p = Some "O"%string <-> p = Py.VInt 2 \/ p = Py.VInt (-1).
Proof.
  split; [| intros [-> | ->]; reflexivity].
  destruct p as [| n]; [intros H; vm_compute in H; discriminate |].
  intros H.
  assert (Hn : n = -3 \/ n = -2 \/ n = -1 \/ n = 0 \/ n = 1 \/ n = 2 \/ n < -3 \/ 2 < n) by lia.
  destruct Hn as [-> | [-> | [-> | [-> | [-> | [-> | Hn]]]]]];
    try (vm_compute in H; discriminate); auto.
  exfalso. revert H.
  unfold Uart.parity_letter, Uart.parity_index, Py.truthy, Py.getitem.
  replace (n =? 0) with false by (symmetry; apply Z.eqb_neq; lia).
  cbn [negb length]. change (Z.of_nat 3) with 3.
  repeat match goal with
         | |- context [?a <=? ?b] => destruct (Z.leb_spec a b)
         | |- context [?a <? ?b] => destruct (Z.ltb_spec a b)
         end; cbn [andb]; try discriminate; lia.
Qed.

(** ** Operations and a pending Ctrl+C *)

Section MonadFacts.
Import Machine.

Lemma op_none {A : Type} (f : M A) (w : world) :
  pending w = None -> op f w = f w.
Proof. unfold op. intros ->. reflexivity. Qed.

Lemma op_zero {A : Type} (f : M A) (w : world) :
  pending w = Some O -> op f w = (Raise KeyboardInterrupt, set_pending None w).
Proof. unfold op. intros ->. reflexivity. Qed.

Lemma op_succ {A : Type} (f : M A) (w : world) (n : nat) :
  pending w = Some (S n) -> op f w = f (set_pending (Some n) w).
Proof. unfold op. intros ->. reflexivity. Qed.

End MonadFacts.

(** ** Loops under a pending Ctrl+C *)

Module CancelFacts.
Import Machine.



Lemma consumes_ret {A : Type} (I : world -> Prop) (a : A) : consumes 0 I (mret a).
Proof.
  intros w n Hn HI. cbn. split; [exact HI |]. exists n. split; [exact Hn | lia].
Qed.

Lemma consumes_bind {A B : Type} (d1 d2 : nat) (I : world -> Prop) (m : M A) (k : A -> M B) :
  consumes d1 I m -> (forall a, consumes d2 I (k a)) -> consumes (d1 + d2) I (m ≫= k).
Proof.
  intros Hm Hk w n Hn HI. unfold mbind, M_bind.
  specialize (Hm w n Hn HI). destruct (m w) as [[a | e |] w1]; [| exact Hm | exact Hm].
  destruct Hm as (HI1 & n1 & Hn1 & Hle).
  specialize (Hk a w1 n1 Hn1 HI1). destruct (k a w1) as [[b | e |] w2]; [| exact Hk | exact Hk].
  destruct Hk as (HI2 & n2 & Hn2 & Hle2).
  split; [exact HI2 |]. exists n2. split; [exact Hn2 | lia].
Qed.

Lemma consumes_weaken {A : Type} (d d' : nat) (I : world -> Prop) (m : M A) :
  (d' <= d)%nat -> consumes d I m -> consumes d' I m.
Proof.
  intros Hd Hm w n Hn HI. specialize (Hm w n Hn HI).
  destruct (m w) as [[a | e |] w1]; [| exact Hm | exact Hm].
  destruct Hm as (HI1 & n1 & Hn1 & Hle). split; [exact HI1 |].
  exists n1. split; [exact Hn1 | lia].
Qed.

(** An operation that returns and leaves the handles in [P]. *)
Lemma consumes_op {A : Type} (P : gmap string pin -> gmap string pwm -> Prop) (f : M A) :
  (forall w, P (pins w) (pwms w) ->
             exists a w', f w = (Ok a, w') /\ P (pins w') (pwms w') /\ pending w' = pending w) ->
  consumes 1 (on_handles P) (op f).
Proof.
  intros Hf w n Hn HI. unfold op. rewrite Hn. destruct n as [| n].
  - split; [reflexivity |]. split; [exact HI | reflexivity].
  - destruct (Hf (set_pending (Some n) w) HI) as (a & w' & -> & HP & Hp).
    split; [exact HP |]. exists n. split; [rewrite Hp; reflexivity | lia].
Qed.

Lemma consumes_for_each {B : Type} (I : world -> Prop) (l : list B) (body : B -> M unit) :
  (forall x, consumes 0 I (body x)) -> consumes 0 I (for_each l body).
Proof.
  intros Hbody. induction l as [| x l IH]; cbn [for_each].
  - apply consumes_ret.
  - change 0%nat with (0 + 0)%nat. apply consumes_bind; [apply Hbody | intros _; exact IH].
Qed.

(** [while True] around a body that costs at least one operation: when
    the fuel exceeds the count of the pending Ctrl+C, the loop ends by
    raising KeyboardInterrupt. *)
Lemma forever_raises (I : world -> Prop) (body : M unit) :
  consumes 1 I body ->
  forall fuel w n, pending w = Some n -> I w -> (n < fuel)%nat ->
    exists w', forever fuel body w = (Raise KeyboardInterrupt, w') /\ I w' /\ pending w' = None.
Proof.
  intros Hbody fuel. induction fuel as [| fuel IH]; intros w n Hn HI Hlt; [lia |].
  cbn [forever]. unfold mbind, M_bind.
  specialize (Hbody w n Hn HI). destruct (body w) as [[[] | e |] w1].
  - destruct Hbody as (HI1 & n1 & Hn1 & Hle).
    apply (IH w1 n1 Hn1 HI1). lia.
  - destruct Hbody as (-> & HI1 & Hp). exists w1. auto.
  - contradiction.
Qed.

Lemma consumes_print (P : gmap string pin -> gmap string pwm -> Prop) (s : string) :
  consumes 1 (on_handles P) (print s).
Proof. apply consumes_op. intros w HP. eauto. Qed.

Lemma consumes_sleep_ms (P : gmap string pin -> gmap string pwm -> Prop) (ms : Z) :
  consumes 1 (on_handles P) (sleep_ms ms).
Proof. apply consumes_op. intros w HP. eauto. Qed.

Lemma consumes_read_input (P : gmap string pin -> gmap string pwm -> Prop) :
  consumes 1 (on_handles P) read_input.
Proof. apply consumes_op. intros w HP. eauto. Qed.


Lemma consumes_Pin_value (h : string) (rest : gmap string pin) (b : bool) :
  consumes 1 (on_handles (led_over h rest)) (Pin_value h b).
Proof.
  apply consumes_op. intros w [[l Hl] Hw]. eexists _, _. split; [reflexivity |].
  cbn. split; [| reflexivity]. split; [| exact Hw].
  exists (Some b). rewrite Hl, alter_insert_eq. reflexivity.
Qed.

Lemma consumes_Pin_toggle (h : string) (rest : gmap string pin) :
  consumes 1 (on_handles (led_over h rest)) (Pin_toggle h).
Proof.
  apply consumes_op. intros w [[l Hl] Hw]. eexists _, _. split; [reflexivity |].
  cbn. split; [| reflexivity]. split; [| exact Hw].
  exists (negb <$> l). rewrite Hl, alter_insert_eq. reflexivity.
Qed.


Lemma consumes_PWM_duty_u16 (h : string) (ps0 : gmap string pin) (d : Z) :
  consumes 1 (on_handles (pwm_over h ps0)) (PWM_duty_u16 h d).
Proof.
  apply consumes_op. intros w [Hp [p Hw]]. eexists _, _. split; [reflexivity |].
  cbn. split; [| reflexivity]. split; [exact Hp |].
  exists (with_duty d p). rewrite Hw. apply alter_singleton_eq.
Qed.

End CancelFacts.

Module ScriptFacts.
Import Machine CancelFacts.
(** Running the operations at the head of a script on a world that is
    given field by field. *)
Ltac run_ops :=
  cbv [mbind M_bind mret M_ret Pin Pin_off Pin_on Pin_value Pin_toggle Pin_get print
       sleep_ms sleep op boot PWM PWM_freq PWM_duty_u16 PWM_deinit ADC read_input
       construct I2C_scan raise try_except is_KeyboardInterrupt for_each
       set_pending set_pins set_pwms set_adcs set_console set_clock set_reads
       set_constructed
       hw files pins pwms adcs console clock pending reads time_calls constructed].

Lemma blink_body :
  consumes 1 (on_handles (led_over LedBlink.LED_PIN ∅))
           (sleep_ms 1000;; Pin_toggle LedBlink.LED_PIN).
Proof.
  apply (consumes_weaken (1 + 1)); [lia |].
  apply consumes_bind; [apply consumes_sleep_ms | intros _; apply consumes_Pin_toggle].
Qed.

Lemma led_blink_cancelled b flash n fuel :
  (LedBlink.before_try <= n)%nat -> (n < fuel)%nat ->
  exists w', LedBlink.main fuel (boot b flash (Some n)) = (Ok tt, w') /\
             pins w' = {[ LedBlink.LED_PIN := mkPin OUT PULL_NONE (Some false) ]} /\
             pwms w' = ∅.
Proof.
  unfold LedBlink.before_try. intros Hn Hfuel.
  destruct n as [| [| [| k]]]; try lia.
  unfold LedBlink.main. run_ops.
  match goal with
  | |- context [forever fuel ?b ?w] =>
      change b with (sleep_ms 1000;; Pin_toggle LedBlink.LED_PIN);
      destruct (forever_raises _ _ blink_body fuel w k) as (w2 & -> & HI & Hp)
  end.
  - reflexivity.
  - split; [| reflexivity]. cbn. eexists. rewrite alter_insert_eq. reflexivity.
  - lia.
  - destruct w2; cbn in HI, Hp. destruct HI as [[l Hl] Hw]. cbn in Hl, Hw. subst.
    run_ops. eexists. split; [reflexivity |]. cbn. rewrite alter_insert_eq. split; reflexivity.
Qed.

Lemma button_body :
  consumes 1 (on_handles (led_over ButtonInput.LED_PIN
                            (<[ButtonInput.BUTTON_PIN := mkPin IN PULL_UP None]> ∅)))
           (v ← read_input;
            (if v =? 0 then Pin_on ButtonInput.LED_PIN else Pin_off ButtonInput.LED_PIN);;
            sleep_ms 50).
Proof.
  apply (consumes_weaken (1 + (1 + 1))); [lia |].
  apply consumes_bind; [apply consumes_read_input | intros v].
  apply consumes_bind; [| intros _; apply consumes_sleep_ms].
  destruct (v =? 0); apply consumes_Pin_value.
Qed.

Lemma button_input_cancelled b flash n fuel :
  (ButtonInput.before_try <= n)%nat -> (n < fuel)%nat ->
  exists w', ButtonInput.main fuel (boot b flash (Some n)) = (Ok tt, w') /\
             pins w' = <[ ButtonInput.LED_PIN := mkPin OUT PULL_NONE (Some false) ]>
                         (<[ ButtonInput.BUTTON_PIN := mkPin IN PULL_UP None ]> ∅) /\
             pwms w' = ∅.
Proof.
  unfold ButtonInput.before_try. intros Hn Hfuel.
  destruct n as [| [| [| [| [| [| k]]]]]]; try lia.
  unfold ButtonInput.main. run_ops.
  match goal with
  | |- context [forever fuel ?b ?w] =>
      change b with (v ← read_input;
                     (if v =? 0 then Pin_on ButtonInput.LED_PIN
                      else Pin_off ButtonInput.LED_PIN);;
                     sleep_ms 50);
      destruct (forever_raises _ _ button_body fuel w k) as (w2 & -> & HI & Hp)
  end.
  - reflexivity.
  - split; [| reflexivity]. cbn. eexists. rewrite alter_insert_eq. reflexivity.
  - lia.
  - destruct w2; cbn in HI, Hp. destruct HI as [[l Hl] Hw]. cbn in Hl, Hw. subst.
    run_ops. eexists. split; [reflexivity |]. cbn. rewrite alter_insert_eq. split; reflexivity.
Qed.


Lemma adc_body prec emax fmt :
  consumes 1 (on_handles adc_handles)
           (raw_value ← read_input;
            let voltage := Adc.voltage prec emax raw_value in
            print ("Raw: " +:+ Py.format_5d raw_value +:+ " | Voltage: "
                     +:+ fmt voltage +:+ "V");;
            sleep 1).
Proof.
  apply (consumes_weaken (1 + (1 + 1))); [lia |].
  apply consumes_bind; [apply consumes_read_input | intros v]. cbv zeta.
  apply consumes_bind; [apply consumes_print | intros _; apply consumes_sleep_ms].
Qed.

Lemma adc_input_cancelled prec emax fmt b flash n fuel :
  (AdcInput.before_try <= n)%nat -> (n < fuel)%nat ->
  exists w', AdcInput.main prec emax fmt fuel (boot b flash (Some n)) = (Ok tt, w') /\
             pins w' = {[ AdcInput.ADC_PIN := mkPin MODE_NONE PULL_NONE None ]} /\
             pwms w' = ∅.
Proof.
  unfold AdcInput.before_try. intros Hn Hfuel.
  destruct n as [| [| [| [| [| [| k]]]]]]; try lia.
  unfold AdcInput.main. run_ops.
  match goal with
  | |- context [forever fuel ?b ?w] =>
      change b with (raw_value ← read_input;
                     let voltage := Adc.voltage prec emax raw_value in
                     print ("Raw: " +:+ Py.format_5d raw_value +:+ " | Voltage: "
                              +:+ fmt voltage +:+ "V");;
                     sleep 1);
      destruct (forever_raises _ _ (adc_body prec emax fmt) fuel w k) as (w2 & -> & HI & Hp)
  end.
  - reflexivity.
  - split; reflexivity.
  - lia.
  - destruct w2; cbn in HI, Hp. destruct HI as [Hl Hw]. cbn in Hl, Hw. subst.
    run_ops. eexists. split; [reflexivity |]. cbn. split; reflexivity.
Qed.

Lemma consumes_for_each_cons {B : Type} (d : nat) (I : world -> Prop)
      (l : list B) (body : B -> M unit) :
  l <> [] -> (forall x, consumes d I (body x)) -> consumes d I (for_each l body).
Proof.
  intros Hl Hbody. destruct l as [| x l]; [congruence |]. cbn [for_each].
  replace d with (d + 0)%nat by lia.
  apply consumes_bind; [apply Hbody | intros _].
  apply consumes_for_each. intros y. apply (consumes_weaken d); [lia | apply Hbody].
Qed.


Lemma fade_step (duty : Z) :
  consumes 1 (on_handles fade_handles)
           (PWM_duty_u16 PwmFade.LED_PIN duty;; sleep_ms Fade.FADE_DELAY).
Proof.
  apply (consumes_weaken (1 + 1)); [lia |].
  apply consumes_bind; [apply consumes_PWM_duty_u16 | intros _; apply consumes_sleep_ms].
Qed.

Lemma fade_body :
  consumes 1 (on_handles fade_handles)
           (for_each Fade.fade_in
              (fun duty => PWM_duty_u16 PwmFade.LED_PIN duty;; sleep_ms Fade.FADE_DELAY);;
            for_each Fade.fade_out
              (fun duty => PWM_duty_u16 PwmFade.LED_PIN duty;; sleep_ms Fade.FADE_DELAY)).
Proof.
  apply (consumes_weaken (1 + 0)); [lia |].
  apply consumes_bind.
  - apply consumes_for_each_cons; [| apply fade_step].
    intros H. pose proof fade_in_first as Hf. rewrite H in Hf. discriminate.
  - intros _. apply consumes_for_each. intros d.
    apply (consumes_weaken 1); [lia | apply fade_step].
Qed.

Lemma pwm_fade_cancelled b flash n fuel :
  (PwmFade.before_try <= n)%nat -> (n < fuel)%nat ->
  exists w', PwmFade.main fuel (boot b flash (Some n)) = (Ok tt, w') /\
             pins w' = {[ PwmFade.LED_PIN := mkPin MODE_NONE PULL_NONE None ]} /\
             pwms w' = {[ PwmFade.LED_PIN := PwmReleased ]}.
Proof.
  unfold PwmFade.before_try. intros Hn Hfuel.
  destruct n as [| [| [| [| [| [| k]]]]]]; try lia.
  unfold PwmFade.main. run_ops.
  match goal with
  | |- context [forever fuel ?b ?w] =>
      change b with
        (for_each Fade.fade_in
           (fun duty => PWM_duty_u16 PwmFade.LED_PIN duty;; sleep_ms Fade.FADE_DELAY);;
         for_each Fade.fade_out
           (fun duty => PWM_duty_u16 PwmFade.LED_PIN duty;; sleep_ms Fade.FADE_DELAY));
      destruct (forever_raises _ _ fade_body fuel w k) as (w2 & -> & HI & Hp)
  end.
  - reflexivity.
  - split; [reflexivity |]. cbn. eexists. rewrite alter_insert_eq. reflexivity.
  - lia.
  - destruct w2; cbn in HI, Hp. destruct HI as [Hl [p Hw]]. cbn in Hl, Hw. subst.
    run_ops. eexists. split; [reflexivity |]. cbn. split; [reflexivity |].
    apply (alter_insert_eq (M := gmap string)).
Qed.

End ScriptFacts.

(** ** Cancellation of the scripts with a main loop *)

(** Ctrl+C before the [try] statement is entered is not caught. *)
Example led_blink_cancelled_early :
  forall b flash fuel,
    fst (LedBlink.main fuel (Machine.boot b flash (Some 2%nat)))
    = Machine.Raise Machine.KeyboardInterrupt.
Proof. intros. unfold LedBlink.main. ScriptFacts.run_ops. reflexivity. Qed.

(** C6: every script with a [while True] loop catches the Ctrl+C that
    arrives while the loop runs and ends normally, with every GPIO
    output it holds (the LED of 01 and 03) at the off level and every
    PWM it acquired (the one of 05) released; 04 holds neither. *)
Theorem cancelled_scripts_end_safe
        (prec emax : Z) (format_5_3f : spec_float -> string)
        (ex : Catalogue.example) (b : Machine.board) (flash : gmap string string)
        (n fuel : nat) :
  In ex (Catalogue.until_cancelled prec emax format_5_3f) ->
  (Catalogue.before_try ex <= n)%nat -> (n < fuel)%nat ->
  exists w',
    Catalogue.main ex fuel (Machine.boot b flash (Some n)) = (Machine.Ok tt, w') /\
    Catalogue.outputs_off w' /\ Catalogue.pwms_released w'.
Proof.
  intros Hin Hn Hfuel. unfold Catalogue.until_cancelled in Hin. cbn [In] in Hin.
  destruct Hin as [<- | [<- | [<- | [<- | []]]]]; cbn [Catalogue.before_try Catalogue.main] in *.
  - destruct (ScriptFacts.led_blink_cancelled b flash n fuel Hn Hfuel) as (w' & Hrun & Hp & Hw).
    exists w'. split; [exact Hrun |]. split.
    + intros name p. rewrite Hp. intros [_ <-]%lookup_singleton_Some _. reflexivity.
    + intros name p. rewrite Hw, lookup_empty. discriminate.
  - destruct (ScriptFacts.button_input_cancelled b flash n fuel Hn Hfuel) as (w' & Hrun & Hp & Hw).
    exists w'. split; [exact Hrun |]. split.
    + intros name p. rewrite Hp.
      intros [[_ <-] | [_ [[_ <-] | [_ H]]%lookup_insert_Some]]%lookup_insert_Some;
        [reflexivity | discriminate | rewrite lookup_empty in H; discriminate].
    + intros name p. rewrite Hw, lookup_empty. discriminate.
  - destruct (ScriptFacts.adc_input_cancelled prec emax format_5_3f b flash n fuel Hn Hfuel)
      as (w' & Hrun & Hp & Hw).
    exists w'. split; [exact Hrun |]. split.
    + intros name p. rewrite Hp. intros [_ <-]%lookup_singleton_Some. discriminate.
    + intros name p. rewrite Hw, lookup_empty. discriminate.
  - destruct (ScriptFacts.pwm_fade_cancelled b flash n fuel Hn Hfuel) as (w' & Hrun & Hp & Hw).
    exists w'. split; [exact Hrun |]. split.
    + intros name p. rewrite Hp. intros [_ <-]%lookup_singleton_Some. discriminate.
    + intros name p. rewrite Hw. intros [_ <-]%lookup_singleton_Some. reflexivity.
Qed.


Lemma cancelled_scripts_end_safe_witness :
  exists w',
    Catalogue.main
      (Catalogue.mkExample "05_pwm_led_fade.py" PwmFade.before_try PwmFade.main)
      9 (Machine.boot quiet_board ∅ (Some 8%nat)) = (Machine.Ok tt, w') /\
    Catalogue.outputs_off w' /\ Catalogue.pwms_released w'.
Proof.
  apply (cancelled_scripts_end_safe 53 1024 (fun _ => EmptyString)
           (Catalogue.mkExample "05_pwm_led_fade.py" PwmFade.before_try PwmFade.main)
           quiet_board ∅ 8 9).
  - right; right; right; left; reflexivity.
  - unfold PwmFade.before_try. cbn [Catalogue.before_try]. lia.
  - lia.
Defined.

(** ** Signal: polarity *)

(** C3: whatever level is requested through a Signal, the pin under it
    is driven to that level XOR the inversion flag; after on() the pin
    reads LOW when invert is True and HIGH when it is False. *)
Theorem signal_drives_requested_xor_invert
        (w : Machine.world) (s : LedSignal.signal) (p : Machine.pin) :
  Machine.pending w = None ->
  Machine.pins w !! LedSignal.sig_pin s = Some p ->
  (forall requested,
      fst ((LedSignal.Signal_value s requested;; Machine.Pin_get (LedSignal.sig_pin s)) w)
      = Machine.Ok (Some (xorb requested (LedSignal.sig_invert s)))) /\
  fst ((LedSignal.Signal_on s;; Machine.Pin_get (LedSignal.sig_pin s)) w)
  = Machine.Ok (Some (negb (LedSignal.sig_invert s))) /\
  fst ((LedSignal.Signal_off s;; Machine.Pin_get (LedSignal.sig_pin s)) w)
  = Machine.Ok (Some (LedSignal.sig_invert s)).
Proof.
  intros Hp Hpin.
  assert (H : forall requested,
             fst ((LedSignal.Signal_value s requested;; Machine.Pin_get (LedSignal.sig_pin s)) w)
             = Machine.Ok (Some (xorb requested (LedSignal.sig_invert s)))).
  { intros requested. destruct w; cbn in Hp, Hpin; subst.
    unfold LedSignal.Signal_value. ScriptFacts.run_ops. cbn [fst].
    unfold Machine.pin_level. cbn [Machine.pins].
    rewrite lookup_alter_eq, Hpin. reflexivity. }
  split; [exact H |]. split.
  - unfold LedSignal.Signal_on. rewrite H. destruct (LedSignal.sig_invert s); reflexivity.
  - unfold LedSignal.Signal_off. rewrite H. destruct (LedSignal.sig_invert s); reflexivity.
Qed.

(** The script itself: the LED pin is LOW when it ends. *)
Lemma led_on_signal_drives_low (b : Machine.board) (flash : gmap string string) :
  exists w', LedSignal.main (Machine.boot b flash None) = (Machine.Ok tt, w') /\
             Machine.pin_level w' LedSignal.LED_PIN = Some false.
Proof.
  unfold LedSignal.main, LedSignal.Signal, LedSignal.Signal_on, LedSignal.Signal_value.
  ScriptFacts.run_ops. eexists. split; [reflexivity |].
  unfold Machine.pin_level. cbn [Machine.pins LedSignal.sig_pin LedSignal.sig_invert].
  rewrite lookup_alter_eq, lookup_insert_eq. reflexivity.
Qed.

Lemma signal_drives_requested_xor_invert_witness :
  fst ((LedSignal.Signal_on (LedSignal.mkSignal "P13_7" true);; Machine.Pin_get "P13_7")
         (Machine.set_pins (insert "P13_7" (Machine.mkPin Machine.OUT Machine.PULL_NONE None))
            (Machine.boot quiet_board ∅ None)))
  = Machine.Ok (Some false).
Proof.
  refine (proj1 (proj2 (signal_drives_requested_xor_invert
                          (Machine.set_pins
                             (insert "P13_7" (Machine.mkPin Machine.OUT Machine.PULL_NONE None))
                             (Machine.boot quiet_board ∅ None))
                          (LedSignal.mkSignal "P13_7" true)
                          (Machine.mkPin Machine.OUT Machine.PULL_NONE None) _ _))).
  - reflexivity.
  - cbn. apply lookup_insert_eq.
Defined.

(** ** Construction of a bus that fails *)

Module BusFacts.

Lemma i2c_failure (rest : bus -> M unit) (b : board) (flash : gmap string string) (e : exn) :
  fault b I2C = Some e -> is_Exception e = true ->
  exists w', I2cComm.main rest (boot b flash None) = (Raise e, w') /\
             console w' = I2cComm.banner ++ [I2cComm.diagnostic e] /\
             constructed w' = [I2C].
Proof.
  intros Hf He. unfold I2cComm.main, I2cComm.banner. ScriptFacts.run_ops.
  rewrite Hf. ScriptFacts.run_ops. rewrite He. ScriptFacts.run_ops.
  eexists. split; [reflexivity |]. split; reflexivity.
Qed.

Lemma spi_failure (rest : bus -> M unit) (b : board) (flash : gmap string string) (e : exn) :
  fault b SPI = Some e -> is_Exception e = true ->
  exists w', SpiComm.main rest (boot b flash None) = (Raise e, w') /\
             console w' = SpiComm.banner ++ [SpiComm.diagnostic e] /\
             constructed w' = [SPI].
Proof.
  intros Hf He. unfold SpiComm.main, SpiComm.banner. ScriptFacts.run_ops.
  rewrite Hf. ScriptFacts.run_ops. rewrite He. ScriptFacts.run_ops.
  eexists. split; [reflexivity |]. split; reflexivity.
Qed.

Lemma uart_failure (rest : bus -> M unit) (b : board) (flash : gmap string string) (e : exn) :
  fault b UART = Some e -> is_Exception e = true ->
  exists w', UartSerial.main rest (boot b flash None) = (Raise e, w') /\
             console w' = UartSerial.banner ++ [UartSerial.diagnostic e] /\
             constructed w' = [UART].
Proof.
  intros Hf He.
  unfold UartSerial.main, UartSerial.banner, UartSerial.banner_head, UartSerial.print_config.
  rewrite banner_default. ScriptFacts.run_ops.
  rewrite Hf. ScriptFacts.run_ops. rewrite He. ScriptFacts.run_ops.
  eexists. split; [reflexivity |]. split; reflexivity.
Qed.

(** In 12 the handler prints and returns: the script goes on, with the
    name i2c unbound. *)
Lemma sensors_failure (rest : option bus -> M unit) (b : board) (flash : gmap string string)
      (e : exn) :
  fault b I2C = Some e -> is_Exception e = true ->
  exists w1, AiSensors.main rest (boot b flash None) = rest None w1 /\
             console w1 = AiSensors.banner ++ AiSensors.diagnostic e /\
             constructed w1 = [I2C] /\ pending w1 = None.
Proof.
  intros Hf He. unfold AiSensors.main, AiSensors.banner, AiSensors.diagnostic.
  ScriptFacts.run_ops.
  rewrite Hf. ScriptFacts.run_ops. rewrite He. ScriptFacts.run_ops.
  eexists. split; [reflexivity |]. repeat split; reflexivity.
Qed.

End BusFacts.


(** C7, as stated, fails on 12_cy8ckit_062s2_ai_sensors.py: the I2C
    constructor raises, the script prints two lines and goes on to its
    end without raising. *)
Lemma sensors_failure_not_raised :
  fault faulty_board I2C = Some (OSError "[Errno 5] EIO") /\
  fst (AiSensors.main (fun _ => print "Example 2: Basic board test - LED and Button")
         (boot faulty_board ∅ None)) = Ok tt /\
  console (snd (AiSensors.main (fun _ => print "Example 2: Basic board test - LED and Button")
                  (boot faulty_board ∅ None)))
  = AiSensors.banner ++ AiSensors.diagnostic (OSError "[Errno 5] EIO")
      ++ ["Example 2: Basic board test - LED and Button"%string].
Proof.
  split; [reflexivity |].
  destruct (BusFacts.sensors_failure
              (fun _ => print "Example 2: Basic board test - LED and Button")
              faulty_board ∅ (OSError "[Errno 5] EIO") eq_refl eq_refl)
    as (w1 & -> & Hc & _ & Hp).
  destruct w1; cbn in Hc, Hp; subst. ScriptFacts.run_ops. cbn [fst snd].
  split; reflexivity.
Qed.

(** C7, amended: in 06, 09 and 10 an exception of class Exception raised
    by the bus constructor is caught, reported by one print and raised
    again, the constructor having been called once; in 12 it is caught
    and reported, and the script goes on instead of raising. *)
Theorem bus_construction_failure
        (b : board) (flash : gmap string string) (e : exn) :
  is_Exception e = true ->
  (fault b I2C = Some e -> forall rest,
      exists w', I2cComm.main rest (boot b flash None) = (Raise e, w') /\
                 console w' = I2cComm.banner ++ [I2cComm.diagnostic e] /\
                 constructed w' = [I2C]) /\
  (fault b SPI = Some e -> forall rest,
      exists w', SpiComm.main rest (boot b flash None) = (Raise e, w') /\
                 console w' = SpiComm.banner ++ [SpiComm.diagnostic e] /\
                 constructed w' = [SPI]) /\
  (fault b UART = Some e -> forall rest,
      exists w', UartSerial.main rest (boot b flash None) = (Raise e, w') /\
                 console w' = UartSerial.banner ++ [UartSerial.diagnostic e] /\
                 constructed w' = [UART]) /\
  (fault b I2C = Some e -> forall rest,
      exists w1, AiSensors.main rest (boot b flash None) = rest None w1 /\
                 console w1 = AiSensors.banner ++ AiSensors.diagnostic e /\
                 constructed w1 = [I2C] /\ pending w1 = None).
Proof.
  intros He. repeat split; intros Hf rest.
  - apply BusFacts.i2c_failure; assumption.
  - apply BusFacts.spi_failure; assumption.
  - apply BusFacts.uart_failure; assumption.
  - destruct (BusFacts.sensors_failure rest b flash e Hf He) as (w1 & H1 & H2 & H3 & H4).
    exists w1. auto.
Qed.

Lemma bus_construction_failure_witness :
  exists w', UartSerial.main (fun _ => mret tt) (boot faulty_board ∅ None)
             = (Raise (OSError "[Errno 5] EIO"), w') /\
             console w' = UartSerial.banner
                            ++ [UartSerial.diagnostic (OSError "[Errno 5] EIO")] /\
             constructed w' = [UART].
Proof.
  exact (proj1 (proj2 (proj2 (bus_construction_failure faulty_board ∅
                                (OSError "[Errno 5] EIO") eq_refl))) eq_refl
           (fun _ => mret tt)).
Defined.

(** An exception that is not of class Exception passes through the
    handler unreported. *)
Lemma i2c_interrupt_not_reported (rest : bus -> M unit) (b : board) (flash : gmap string string) :
  fault b I2C = Some KeyboardInterrupt ->
  exists w', I2cComm.main rest (boot b flash None) = (Raise KeyboardInterrupt, w') /\
             console w' = I2cComm.banner.
Proof.
  intros Hf. unfold I2cComm.main, I2cComm.banner. ScriptFacts.run_ops.
  rewrite Hf. ScriptFacts.run_ops. cbn [is_Exception].
  eexists. split; reflexivity.
Qed.

(** ** Text files *)

Module FileFacts.

(** Running the operations at the head of a script, loops left folded. *)
Ltac run_file_ops :=
  cbv [mbind M_bind mret M_ret print sleep_ms sleep op raise try_except
       open_w open_a open_r File_write File_read time_time Py.nonempty
       FileOps.write_block FileOps.append_block FileOps.print_contents FileOps.print_lines
       set_pending set_files set_console set_clock set_time_calls
       hw files pins pwms adcs console clock pending reads time_calls constructed].

Ltac map_simpl :=
  rewrite ?(lookup_insert_eq (M := gmap string)), ?(alter_insert_eq (M := gmap string)),
    ?(insert_insert_eq (M := gmap string)).

Ltac run_file :=
  repeat (progress (run_file_ops; cbn [for_each FileOps.print_numbered default]; map_simpl)).

(** One statement at a time. *)
Lemma bind_Ok {A B : Type} (m : M A) (k : A -> M B) (w w1 : world) (a : A) :
  m w = (Ok a, w1) -> (m ≫= k) w = k a w1.
Proof. intros H. unfold mbind, M_bind. rewrite H. reflexivity. Qed.

Lemma bind_assoc_run {A B C : Type} (m : M A) (k1 : A -> M B) (k2 : B -> M C) (w : world) :
  ((m ≫= k1) ≫= k2) w = (m ≫= (fun a => k1 a ≫= k2)) w.
Proof.
  unfold mbind, M_bind. destruct (m w) as [[a | e |] w1]; [| reflexivity | reflexivity].
  reflexivity.
Qed.

Lemma ret_run {A : Type} (a : A) (w : world) : (mret a : M A) w = (Ok a, w).
Proof. reflexivity. Qed.

Ltac world_simpl :=
  cbv [set_pending set_files set_console set_clock set_time_calls set_pins set_pwms
       set_adcs set_reads set_constructed
       hw files pins pwms adcs console clock pending reads time_calls constructed];
  cbn [for_each FileOps.print_numbered default].

(** The statement at the head, run on a world without pending Ctrl+C. *)
Ltac head_op :=
  unfold print, sleep_ms, sleep, open_w, open_a, open_r, File_write, File_read, time_time;
  first [rewrite op_none by reflexivity | idtac];
  world_simpl; map_simpl; reflexivity.

Ltac step :=
  rewrite ?bind_assoc_run;
  first [ erewrite bind_Ok by head_op | rewrite ret_run ];
  world_simpl.



Lemma set_console_app (w : world) (o1 o2 : list string) :
  set_console (fun c => c ++ o2) (set_console (fun c => c ++ o1) w)
  = set_console (fun c => c ++ (o1 ++ o2)) w.
Proof. destruct w. unfold set_console. cbn. f_equal. symmetry. apply List.app_assoc. Qed.

Lemma set_console_nil (w : world) : set_console (fun c => c ++ []) w = w.
Proof. destruct w. unfold set_console. cbn. f_equal. apply List.app_nil_r. Qed.

Lemma benign_returns {A : Type} (m : M A) :
  benign no_exn m ->
  forall w, pending w = None -> exists a out, m w = (Ok a, set_console (fun c => c ++ out) w).
Proof.
  intros Hm w Hp. destruct (Hm w Hp) as ([a | e |] & out & Heq & Hr);
    [eauto | discriminate | contradiction].
Qed.

Lemma benign_ret {A : Type} (P : exn -> bool) (a : A) : benign P (mret a).
Proof.
  intros w _. exists (Ok a), []. rewrite set_console_nil. split; [reflexivity | exact I].
Qed.

Lemma benign_mono {A : Type} (P Q : exn -> bool) (m : M A) :
  (forall e, P e = true -> Q e = true) -> benign P m -> benign Q m.
Proof.
  intros HPQ Hm w Hp. destruct (Hm w Hp) as (r & out & Heq & Hr).
  exists r, out. split; [exact Heq |]. destruct r; auto.
Qed.

Lemma benign_bind {A B : Type} (P : exn -> bool) (m : M A) (k : A -> M B) :
  benign P m -> (forall a, benign P (k a)) -> benign P (m ≫= k).
Proof.
  intros Hm Hk w Hp. unfold mbind, M_bind.
  destruct (Hm w Hp) as (r & out & -> & Hr). destruct r as [a | e |].
  - destruct (Hk a (set_console (fun c => c ++ out) w)) as (r2 & out2 & -> & Hr2).
    { destruct w; exact Hp. }
    exists r2, (out ++ out2). rewrite set_console_app. split; [reflexivity | exact Hr2].
  - exists (Raise e), out. split; [reflexivity | exact Hr].
  - contradiction.
Qed.

Lemma benign_try_except {A : Type} (P Q : exn -> bool) (m : M A)
      (handles : exn -> bool) (h : exn -> M A) :
  benign P m -> (forall e, P e = true -> handles e = true) -> (forall e, benign Q (h e)) ->
  benign Q (try_except m handles h).
Proof.
  intros Hm Hh Hk w Hp. unfold try_except.
  destruct (Hm w Hp) as (r & out & -> & Hr). destruct r as [a | e |].
  - exists (Ok a), out. split; [reflexivity | exact I].
  - rewrite (Hh e Hr).
    destruct (Hk e (set_console (fun c => c ++ out) w)) as (r2 & out2 & -> & Hr2).
    { destruct w; exact Hp. }
    exists r2, (out ++ out2). rewrite set_console_app. split; [reflexivity | exact Hr2].
  - contradiction.
Qed.

Lemma benign_for_each {B : Type} (P : exn -> bool) (l : list B) (body : B -> M unit) :
  (forall x, benign P (body x)) -> benign P (for_each l body).
Proof.
  intros Hbody. induction l as [| x l IH]; cbn [for_each].
  - apply benign_ret.
  - apply benign_bind; [apply Hbody | intros _; exact IH].
Qed.

Lemma benign_print (P : exn -> bool) (s : string) : benign P (print s).
Proof.
  intros w Hp. unfold print. rewrite (op_none _ _ Hp).
  exists (Ok tt), [s]. split; [reflexivity | exact I].
Qed.

Lemma benign_os_listdir (P : exn -> bool) : benign P os_listdir.
Proof.
  intros w Hp. unfold os_listdir. rewrite (op_none _ _ Hp).
  eexists (Ok _), []. rewrite set_console_nil. split; [reflexivity | exact I].
Qed.

Lemma benign_os_stat_size (name : string) : benign is_OSError (os_stat_size name).
Proof.
  intros w Hp. unfold os_stat_size. rewrite (op_none _ _ Hp).
  destruct (files w !! name) as [c |].
  - eexists (Ok _), []. rewrite set_console_nil. split; [reflexivity | exact I].
  - exists (Raise ENOENT), []. rewrite set_console_nil. split; reflexivity.
Qed.

Lemma benign_print_numbered (P : exn -> bool) (ls : list string) (line_num : Z) :
  benign P (FileOps.print_numbered ls line_num).
Proof.
  revert line_num. induction ls as [| l ls IH]; intros line_num; cbn [FileOps.print_numbered].
  - apply benign_ret.
  - apply benign_bind; [apply benign_print | intros _; apply IH].
Qed.

(** Reading a file that exists only prints. *)
Lemma benign_print_contents (name c : string) (w : world) :
  pending w = None -> files w !! name = Some c ->
  exists out, FileOps.print_contents name w = (Ok tt, set_console (fun c => c ++ out) w).
Proof.
  intros Hp Hf. unfold FileOps.print_contents.
  unfold mbind at 1, M_bind at 1. unfold open_r. rewrite (op_none _ _ Hp), Hf.
  unfold mbind at 1, M_bind at 1. unfold File_read. rewrite (op_none _ _ Hp), Hf. cbn [default].
  assert (Hrest : benign no_exn
            (print "   File contents:";;
             print ("   " +:+ Py.repeat_str "-" 45);;
             for_each (Py.split "010" c)
               (fun line => if Py.nonempty line then print ("   " +:+ line) else mret tt);;
             print ("   " +:+ Py.repeat_str "-" 45))).
  { repeat (apply benign_bind; [| intros _]); try apply benign_print.
    apply benign_for_each. intros line. destruct (Py.nonempty line);
      [apply benign_print | apply benign_ret]. }
  destruct (benign_returns _ Hrest w Hp) as ([] & out & Heq). exists out. exact Heq.
Qed.

Lemma benign_print_lines (name c : string) (w : world) :
  pending w = None -> files w !! name = Some c ->
  exists out, FileOps.print_lines name w = (Ok tt, set_console (fun c => c ++ out) w).
Proof.
  intros Hp Hf. unfold FileOps.print_lines.
  unfold mbind at 1, M_bind at 1. unfold open_r. rewrite (op_none _ _ Hp), Hf.
  unfold mbind at 1, M_bind at 1. unfold File_read. rewrite (op_none _ _ Hp), Hf. cbn [default].
  assert (Hrest : benign no_exn (FileOps.print_numbered (Py.lines c) 1;; mret tt)).
  { apply benign_bind; [apply benign_print_numbered | intros _; apply benign_ret]. }
  destruct (benign_returns _ Hrest w Hp) as ([] & out & Heq). exists out. exact Heq.
Qed.

Section Interpreter.

Variables prec emax : Z.
Variable str_float : spec_float -> string.

Lemma example2_run (c : string) (w : world) :
  pending w = None -> files w !! FileOps.filename = Some c ->
  exists out, FileOps.example2 w = (Ok tt, set_console (fun c => c ++ out) w).
Proof.
  intros Hp Hf. unfold FileOps.example2.
  unfold mbind, M_bind. unfold print at 1. rewrite (op_none _ _ Hp).
  destruct (benign_print_contents FileOps.filename c
              (set_console (fun c0 => c0 ++ [Py.nl +:+ "2. Reading from a file..."]) w))
    as (out & ->); [destruct w; exact Hp | destruct w; exact Hf |].
  rewrite set_console_app. eauto.
Qed.

Lemma example4_run (c : string) (w : world) :
  pending w = None -> files w !! FileOps.filename = Some c ->
  exists out, FileOps.example4 w = (Ok tt, set_console (fun c => c ++ out) w).
Proof.
  intros Hp Hf. unfold FileOps.example4.
  unfold mbind, M_bind. unfold print at 1. rewrite (op_none _ _ Hp).
  destruct (benign_print_lines FileOps.filename c
              (set_console (fun c0 => c0 ++ [Py.nl +:+ "4. Reading file line by line..."]) w))
    as (out & ->); [destruct w; exact Hp | destruct w; exact Hf |].
  rewrite set_console_app. eauto.
Qed.

Lemma example6_benign : benign no_exn FileOps.example6.
Proof.
  unfold FileOps.example6. apply benign_bind; [apply benign_print | intros _].
  apply (benign_try_except is_OSError); [| intros e He; destruct e; auto; discriminate
                                         | intros e; apply benign_print].
  apply benign_bind; [apply benign_os_listdir | intros fs].
  apply benign_bind; [apply benign_print | intros _].
  apply benign_for_each. intros file.
  apply (benign_try_except is_OSError); [| reflexivity | intros e; apply benign_print].
  apply benign_bind; [apply benign_os_stat_size | intros size; apply benign_print].
Qed.

Lemma example7_benign : benign no_exn FileOps.example7.
Proof.
  unfold FileOps.example7. apply benign_bind; [apply benign_print | intros _].
  apply benign_for_each. intros fname.
  apply (benign_try_except is_OSError); [| auto | intros e; apply benign_print].
  apply benign_bind; [apply benign_os_stat_size | intros _; apply benign_print].
Qed.

Lemma example8_benign : benign no_exn FileOps.example8.
Proof.
  unfold FileOps.example8. repeat (apply benign_bind; [| intros _]); apply benign_print.
Qed.

End Interpreter.

End FileFacts.


(** C5: a log written with a, b, c on three lines in mode 'w', then
    appended with d in mode 'a', holds the four lines in that order, and
    both ways the script reads a file back (split on the newline with
    the empty lines skipped; line by line with strip) yield a, b, c, d
    in order, whatever the file held before. *)
Theorem log_round_trip_lines (w : world) :
  pending w = None ->
  exists w',
    FileOps.log_round_trip "log.txt" scenario_written scenario_appended w = (Ok tt, w') /\
    files w' !! "log.txt"
    = Some ("a" +:+ Py.nl +:+ "b" +:+ Py.nl +:+ "c" +:+ Py.nl +:+ "d" +:+ Py.nl)%string /\
    console w' = console w ++
      [ "   File contents:"; "   " +:+ Py.repeat_str "-" 45;
        "   a"; "   b"; "   c"; "   d";
        "   " +:+ Py.repeat_str "-" 45;
        "   Line 1: a"; "   Line 2: b"; "   Line 3: c"; "   Line 4: d" ]%string.
Proof.
  intros Hp. destruct w; cbn in Hp; subst.
  unfold FileOps.log_round_trip, scenario_written, scenario_appended.
  FileFacts.run_file.
  match goal with
  | |- context [Py.split ?c ?s] =>
      let r := eval vm_compute in (Py.split c s) in change (Py.split c s) with r
  end.
  FileFacts.run_file.
  match goal with
  | |- context [Py.lines ?s] =>
      let r := eval vm_compute in (Py.lines s) in change (Py.lines s) with r
  end.
  FileFacts.run_file.
  eexists. split; [reflexivity |]. cbn [files console]. split.
  - rewrite lookup_insert_eq. reflexivity.
  - rewrite <- !List.app_assoc. reflexivity.
Qed.

Lemma log_round_trip_lines_witness :
  exists w',
    FileOps.log_round_trip "log.txt" scenario_written scenario_appended
      (boot quiet_board {[ "log.txt" := "stale"%string ]} None) = (Ok tt, w') /\
    files w' !! "log.txt"
    = Some ("a" +:+ Py.nl +:+ "b" +:+ Py.nl +:+ "c" +:+ Py.nl +:+ "d" +:+ Py.nl)%string /\
    console w' = console (boot quiet_board {[ "log.txt" := "stale"%string ]} None) ++
      [ "   File contents:"; "   " +:+ Py.repeat_str "-" 45;
        "   a"; "   b"; "   c"; "   d";
        "   " +:+ Py.repeat_str "-" 45;
        "   Line 1: a"; "   Line 2: b"; "   Line 3: c"; "   Line 4: d" ]%string.
Proof.
  apply (log_round_trip_lines (boot quiet_board {[ "log.txt" := "stale"%string ]} None)).
  reflexivity.
Defined.

Lemma append_cons (c : ascii) (s t : string) : (String c s +:+ t = String c (s +:+ t))%string.
Proof. reflexivity. Qed.

Lemma append_nil_l (s : string) : ("" +:+ s = s)%string.
Proof. reflexivity. Qed.

Lemma append_assoc (s t u : string) : ((s +:+ t) +:+ u = s +:+ (t +:+ u))%string.
Proof.
  induction s as [| c s IH]; [reflexivity |]. rewrite !append_cons, IH. reflexivity.
Qed.

(** The first line of a text that starts with a line without newline. *)
Lemma lines_first (l rest : string) :
  Py.no_newline l = true ->
  Py.lines ((l +:+ Py.nl) +:+ rest) = (l +:+ Py.nl)%string :: Py.lines rest.
Proof.
  induction l as [| c l IH]; intros Hl.
  - reflexivity.
  - cbn [Py.no_newline] in Hl. apply andb_prop in Hl. destruct Hl as [Hc Hl].
    rewrite !append_cons. cbn [Py.lines]. apply negb_true_iff in Hc. rewrite Hc.
    rewrite (IH Hl). reflexivity.
Qed.

(** C8: when 07_file_operations.py has run, whatever the flash held
    before, sensor_log.csv is the header line followed by the five rows
    the loop appended, in order; its first line is exactly the header. *)
Theorem sensor_log_header_then_rows
        (prec emax : Z) (str_float : spec_float -> string)
        (b : board) (flash : gmap string string) :
  exists w' content,
    FileOps.main prec emax str_float (boot b flash None) = (Ok tt, w') /\
    files w' !! FileOps.log_file = Some content /\
    content = ((FileOps.csv_header +:+ Py.nl)
                 +:+ FileOps.csv_row prec emax str_float (times b 2) 0
                 +:+ FileOps.csv_row prec emax str_float (times b 3) 1
                 +:+ FileOps.csv_row prec emax str_float (times b 4) 2
                 +:+ FileOps.csv_row prec emax str_float (times b 5) 3
                 +:+ FileOps.csv_row prec emax str_float (times b 6) 4)%string /\
    hd_error (Py.lines content) = Some (FileOps.csv_header +:+ Py.nl)%string.
Proof.
  unfold FileOps.main, boot.
  do 2 FileFacts.step.
  unfold FileOps.example1. do 8 FileFacts.step.
  match goal with
  | |- context [(FileOps.example2 ≫= _) ?w] =>
      match w with
      | context [<[FileOps.filename := ?c]> flash] =>
          destruct (FileFacts.example2_run c w eq_refl (lookup_insert_eq _ _ _)) as (out2 & H2)
      end
  end.
  rewrite (FileFacts.bind_Ok _ _ _ _ _ H2). clear H2. FileFacts.world_simpl.
  unfold FileOps.example3. do 6 FileFacts.step.
  match goal with
  | |- context [(FileOps.example4 ≫= _) ?w] =>
      match w with
      | context [<[FileOps.filename := ?c]> flash] =>
          destruct (FileFacts.example4_run c w eq_refl (lookup_insert_eq _ _ _)) as (out4 & H4)
      end
  end.
  rewrite (FileFacts.bind_Ok _ _ _ _ _ H4). clear H4. FileFacts.world_simpl.
  unfold FileOps.example5. change (Py.range 0 5 1) with [0; 1; 2; 3; 4].
  do 4 FileFacts.step. do 26 FileFacts.step.
  match goal with
  | |- context [(FileOps.example6 ≫= _) ?w] =>
      destruct (FileFacts.benign_returns _ FileFacts.example6_benign w eq_refl)
        as ([] & out6 & H6)
  end.
  rewrite (FileFacts.bind_Ok _ _ _ _ _ H6). clear H6. FileFacts.world_simpl.
  match goal with
  | |- context [(FileOps.example7 ≫= _) ?w] =>
      destruct (FileFacts.benign_returns _ FileFacts.example7_benign w eq_refl)
        as ([] & out7 & H7)
  end.
  rewrite (FileFacts.bind_Ok _ _ _ _ _ H7). clear H7. FileFacts.world_simpl.
  match goal with
  | |- context [(FileOps.example8 ≫= _) ?w] =>
      destruct (FileFacts.benign_returns _ FileFacts.example8_benign w eq_refl)
        as ([] & out8 & H8)
  end.
  rewrite (FileFacts.bind_Ok _ _ _ _ _ H8). clear H8. FileFacts.world_simpl.
  do 2 FileFacts.step.
  eexists _, _. split; [FileFacts.head_op |]. FileFacts.world_simpl.
  split; [apply lookup_insert_eq |].
  assert (Hc : forall h r0 r1 r2 r3 r4 : string,
             ((((("" +:+ h) +:+ r0) +:+ r1) +:+ r2) +:+ r3) +:+ r4
             = (h +:+ r0 +:+ r1 +:+ r2 +:+ r3 +:+ r4)%string).
  { intros. rewrite append_nil_l, !append_assoc. reflexivity. }
  rewrite Hc. split; [reflexivity |].
  rewrite lines_first; reflexivity.
Qed.

(** ** ADC: samples to volts *)

Module AdcFacts.

Lemma SFleb_refl (x : spec_float) : Adc.nonneg x = true -> SFleb x x = true.
Proof.
  destruct x as [s | s | | s m e]; try discriminate; [reflexivity |].
  destruct s; [discriminate |]. intros _.
  unfold SFleb, SFcompare. rewrite Z.compare_refl.
  change (Pos.compare_cont Eq m m) with (Pos.compare m m). rewrite Pos.compare_refl. reflexivity.
Qed.

Lemma SFleb_finite (m1 m2 : positive) (e1 e2 : Z) :
  SFleb (S754_finite false m1 e1) (S754_finite false m2 e2) = true <->
  e1 < e2 \/ (e1 = e2 /\ (m1 <= m2)%positive).
Proof.
  unfold SFleb, SFcompare.
  change (Pos.compare_cont Eq m1 m2) with (Pos.compare m1 m2).
  destruct (Z.compare_spec e1 e2) as [He | He | He].
  - destruct (Pos.compare_spec m1 m2) as [Hm | Hm | Hm]; split; intros H;
      try discriminate; try reflexivity; try (right; split; [exact He | lia]).
    destruct H as [H | [_ H]]; lia.
  - split; [intros _; left; exact He | reflexivity].
  - split; [discriminate | intros [H | [H _]]; lia].
Qed.

Lemma SFleb_trans (x y z : spec_float) :
  Adc.nonneg x = true -> Adc.nonneg y = true -> Adc.nonneg z = true ->
  SFleb x y = true -> SFleb y z = true -> SFleb x z = true.
Proof.
  destruct x as [sx | sx | | sx mx ex]; try discriminate;
    destruct y as [sy | sy | | sy my ey]; try discriminate;
    destruct z as [sz | sz | | sz mz ez]; try discriminate;
    try destruct sx; try destruct sy; try destruct sz; try discriminate;
    intros _ _ _; try reflexivity; try discriminate.
  rewrite !SFleb_finite. intros [H1 | [H1 H1']] [H2 | [H2 H2']]; [left | left | left | right]; lia.
Qed.

Section Ascending.

Variable v : Z -> spec_float.

Lemma ascending_from_steps (n : nat) (r : Z) :
  Adc.ascending_from v n r (v r) = true ->
  forall i, r <= i < r + Z.of_nat n ->
            Adc.nonneg (v (i + 1)) = true /\ SFleb (v i) (v (i + 1)) = true.
Proof.
  revert r. induction n as [| n IH]; intros r H i Hi; [lia |].
  cbn [Adc.ascending_from] in H. cbv zeta in H.
  apply andb_prop in H. destruct H as [H Hrest].
  apply andb_prop in H. destruct H as [Hnn Hle].
  destruct (Z.eq_dec i r) as [-> | Hne]; [split; assumption |].
  apply (IH (r + 1) Hrest). lia.
Qed.

Lemma ascending_nonneg (n : nat) :
  Adc.ascending v n = true -> forall i, 0 <= i <= Z.of_nat n -> Adc.nonneg (v i) = true.
Proof.
  unfold Adc.ascending. cbv zeta. intros H i Hi.
  apply andb_prop in H. destruct H as [H0 H].
  destruct (Z.eq_dec i 0) as [-> | Hne]; [exact H0 |].
  replace i with (i - 1 + 1) by lia.
  apply (ascending_from_steps n 0 H (i - 1)). lia.
Qed.

Lemma ascending_monotone (n : nat) :
  Adc.ascending v n = true ->
  forall i j, 0 <= i -> i <= j -> j <= Z.of_nat n -> SFleb (v i) (v j) = true.
Proof.
  intros H i j Hi Hij Hj.
  assert (Hk : forall k : nat, i + Z.of_nat k <= Z.of_nat n ->
                               SFleb (v i) (v (i + Z.of_nat k)) = true).
  { induction k as [| k IH]; intros Hk.
    - rewrite Z.add_0_r. apply SFleb_refl. apply (ascending_nonneg n H). lia.
    - assert (Hs : SFleb (v (i + Z.of_nat k)) (v (i + Z.of_nat k + 1)) = true).
      { unfold Adc.ascending in H. cbv zeta in H. apply andb_prop in H.
        apply (ascending_from_steps n 0 (proj2 H)). lia. }
      replace (i + Z.of_nat (S k)) with (i + Z.of_nat k + 1) by lia.
      apply (SFleb_trans _ (v (i + Z.of_nat k))); try (apply (ascending_nonneg n H); lia).
      + apply IH. lia.
      + exact Hs. }
  replace j with (i + Z.of_nat (Z.to_nat (j - i))) by lia. apply Hk. lia.
Qed.

End Ascending.

Lemma voltage64_scaled (r : Z) :
  Adc.voltage64 r = Adc.scaled 53 1024 Adc.full64 Adc.vref64 r.
Proof. reflexivity. Qed.

Lemma voltage32_scaled (r : Z) :
  Adc.voltage32 r = Adc.scaled 24 128 Adc.full32 Adc.vref32 r.
Proof. reflexivity. Qed.

Lemma scaled64_ascending :
  Adc.ascending (Adc.scaled 53 1024 Adc.full64 Adc.vref64) (Z.to_nat 65535) = true.
Proof. vm_compute. reflexivity. Qed.

Lemma scaled32_ascending :
  Adc.ascending (Adc.scaled 24 128 Adc.full32 Adc.vref32) (Z.to_nat 65535) = true.
Proof. vm_compute. reflexivity. Qed.

End AdcFacts.

(** The literal 3.3 in the two formats. *)
Example VREF_bits :
  Adc.VREF64 = S754_finite false 7430939385161318 (-51) /\
  Adc.VREF32 = S754_finite false 13841203 (-22).
Proof. split; vm_compute; reflexivity. Qed.

(** C4: in binary64 and in binary32 arithmetic alike, the conversion
    gives 0.0 for the sample 0 and VREF itself for the sample 65535, and
    for samples r1 <= r2 between 0 and 65535 the voltage of r1 is at
    most the voltage of r2. *)
Theorem adc_voltage_endpoints_and_monotone (r1 r2 : Z) :
  0 <= r1 -> r1 <= r2 -> r2 <= 65535 ->
  (Adc.voltage64 0 = S754_zero false /\ Adc.voltage64 65535 = Adc.VREF64 /\
   SFleb (Adc.voltage64 r1) (Adc.voltage64 r2) = true) /\
  (Adc.voltage32 0 = S754_zero false /\ Adc.voltage32 65535 = Adc.VREF32 /\
   SFleb (Adc.voltage32 r1) (Adc.voltage32 r2) = true).
Proof.
  intros H1 H12 H2. split; (split; [vm_compute; reflexivity |]); (split; [vm_compute; reflexivity |]).
  - rewrite !AdcFacts.voltage64_scaled.
    apply (AdcFacts.ascending_monotone _ _ AdcFacts.scaled64_ascending); lia.
  - rewrite !AdcFacts.voltage32_scaled.
    apply (AdcFacts.ascending_monotone _ _ AdcFacts.scaled32_ascending); lia.
Qed.

Lemma adc_voltage_endpoints_and_monotone_witness :
  (Adc.voltage64 0 = S754_zero false /\ Adc.voltage64 65535 = Adc.VREF64 /\
   SFleb (Adc.voltage64 12000) (Adc.voltage64 45000) = true) /\
  (Adc.voltage32 0 = S754_zero false /\ Adc.voltage32 65535 = Adc.VREF32 /\
   SFleb (Adc.voltage32 12000) (Adc.voltage32 45000) = true).
Proof.
  apply (adc_voltage_endpoints_and_monotone 12000 45000); lia.
Defined.
